(** * ReviewAnalyzer: the review-to-summary pipeline of [App.py]

    A shallow embedding of class [AmazonReviewAnalyzer] and of the
    [/analyze] endpoint, followed by the properties of the pipeline:
    sentiment thresholds, theme mining, aggregate statistics and the
    template-driven narrative.

    Modelling conventions.
    - A Python [str] is a [string]; a character is a code point below 256,
      so [lower], [strip] and [len] act on Latin-1 text.
    - A Python [float] is the rational number it denotes ([Q]); comparisons
      of floats are comparisons of rationals.  What rounds is not computed
      here but taken as a parameter: the mean of the rating column
      ([pandas]' float64 mean, whose summation order and rounding are the
      library's) and the printing of a float to one decimal place.  The
      percentages are the exact quotients; their comparisons with 60, 70 and
      80 are those of the doubles ([percent_thresholds_in_doubles] checks it
      on lists of up to 1000 reviews).
    - The Selenium driver is the only state: the list of URLs handed to
      [driver.get].  What the web answers, TextBlob's polarity scorer and
      [urllib]'s [netloc] are parameters of the development.
    - An operation that can raise returns a [result]; [try]/[except] is
      [try_except]. *)

From Stdlib Require Import Bool Arith ZArith QArith Lia List Ascii String.
From Stdlib Require Import DecimalString Permutation.
From Stdlib Require PrimFloat FloatOps SpecFloat Uint63.
Import ListNotations.

Local Open Scope nat_scope.
Local Open Scope list_scope.
Local Open Scope string_scope.

(** ** Python built-ins used by the program *)

Module Py.

Inductive exn : Type :=
| ValueError (msg : string)
| KeyError (key : string)
| IndexError
| ZeroDivisionError
| WebDriverException.

Inductive result (A : Type) : Type :=
| Ok (a : A)
| Raise (e : exn).
Arguments Ok {A} a.
Arguments Raise {A} e.

Definition rbind {A B} (c : result A) (k : A -> result B) : result B :=
  match c with
  | Ok a => k a
  | Raise e => Raise e
  end.

(** [str(e)] *)
Definition str_exn (e : exn) : string :=
  match e with
  | ValueError msg => msg
  | KeyError key => "'" ++ key ++ "'"
  | IndexError => "list index out of range"
  | ZeroDivisionError => "division by zero"
  | WebDriverException => "Message: "
  end.

(** Truthiness of a list and of a string. *)
Definition truthy {A} (l : list A) : bool :=
  match l with
  | [] => false
  | _ :: _ => true
  end.

Definition nonempty (s : string) : bool :=
  match s with
  | EmptyString => false
  | String _ _ => true
  end.

Definition code (c : ascii) : nat := nat_of_ascii c.

Definition between (lo hi n : nat) : bool := (lo <=? n)%nat && (n <=? hi)%nat.

(** [c.isspace()] on code points below 256. *)
Definition is_space (c : ascii) : bool :=
  let n := code c in
  between 9 13 n || between 28 32 n || (n =? 133)%nat || (n =? 160)%nat.

(** [c.lower()] on code points below 256. *)
Definition lower_char (c : ascii) : ascii :=
  let n := code c in
  if between 65 90 n || (between 192 222 n && negb (n =? 215)%nat)
  then ascii_of_nat (n + 32)
  else c.

Fixpoint lower (s : string) : string :=
  match s with
  | EmptyString => EmptyString
  | String c s' => String (lower_char c) (lower s')
  end.

Fixpoint lstrip (s : string) : string :=
  match s with
  | EmptyString => EmptyString
  | String c s' => if is_space c then lstrip s' else s
  end.

Fixpoint rstrip (s : string) : string :=
  match s with
  | EmptyString => EmptyString
  | String c s' =>
      match rstrip s' with
      | EmptyString => if is_space c then EmptyString else String c EmptyString
      | r => String c r
      end
  end.

Definition strip (s : string) : string := rstrip (lstrip s).

(** [k in t] *)
Fixpoint contains (k t : string) : bool :=
  if prefix k t then true
  else match t with
       | EmptyString => false
       | String _ t' => contains k t'
       end.

(** [s.split(sep)] for a one-character separator: never the empty list. *)
Fixpoint split (sep : ascii) (s : string) : list string :=
  match s with
  | EmptyString => [EmptyString]
  | String c s' =>
      if Ascii.eqb c sep then EmptyString :: split sep s'
      else match split sep s' with
           | seg :: segs => String c seg :: segs
           | [] => [String c EmptyString]
           end
  end.

(** [s[:n]] and [s[n:]] *)
Definition take (n : nat) (s : string) : string := substring 0 n s.
Definition drop (n : nat) (s : string) : string := substring n (length s - n) s.

(** [sep.join(l)] *)
Definition join (sep : string) (l : list string) : string := concat sep l.

(** [str(n)] for a non-negative integer. *)
Definition str_nat (n : nat) : string := NilZero.string_of_uint (Nat.to_uint n).

(** [max(l, key=key)]: the first element of maximal key; raises on [[]]. *)
Definition max_by {A} (key : A -> nat) (l : list A) : result A :=
  match l with
  | [] => Raise (ValueError "max() arg is an empty sequence")
  | x :: xs => Ok (fold_left (fun best y => if (key best <? key y)%nat then y else best) xs x)
  end.

(** [l[0]], [l[-1]] and [l[:-1]] *)
Definition first {A} (l : list A) : result A :=
  match l with
  | [] => Raise IndexError
  | x :: _ => Ok x
  end.

Definition last {A} (l : list A) : result A :=
  match rev l with
  | [] => Raise IndexError
  | x :: _ => Ok x
  end.

Definition but_last {A} (l : list A) : list A := removelast l.

(** [a / b] on integers: the exact quotient, which the double rounds. *)
Definition div (a b : nat) : result Q :=
  match b with
  | O => Raise ZeroDivisionError
  | S _ => Ok (inject_Z (Z.of_nat a) / inject_Z (Z.of_nat b))%Q
  end.

(** [x >= y], [x > y] and [x < y] on rationals. *)
Definition geb (x y : Q) : bool := Qle_bool y x.
Definition gtb (x y : Q) : bool := negb (Qle_bool x y).
Definition ltb (x y : Q) : bool := negb (Qle_bool y x).

End Py.

Import Py.

(** ** The driver monad

    The program owns one Selenium driver.  Its observable state is the list
    of URLs passed to [driver.get], oldest first.  A computation threads
    that state and either returns or raises. *)

Definition Driver : Type := list string.

Definition M (A : Type) : Type := Driver -> result A * Driver.

Definition ret {A} (a : A) : M A := fun d => (Ok a, d).

Definition bind {A B} (c : M A) (k : A -> M B) : M B :=
  fun d =>
    match c d with
    | (Ok a, d') => k a d'
    | (Raise e, d') => (Raise e, d')
    end.

Definition lift {A} (r : result A) : M A := fun d => (r, d).

(** [try: c  except Exception as e: h e] *)
Definition try_except {A} (c : M A) (h : exn -> M A) : M A :=
  fun d =>
    match c d with
    | (Ok a, d') => (Ok a, d')
    | (Raise e, d') => h e d'
    end.

(** [self.driver.get(url)] *)
Definition driver_get (url : string) : M unit :=
  fun d => (Ok tt, (d ++ [url])%list).

Notation "x <- c ;; k" := (bind c (fun x => k))
  (at level 61, c at next level, right associativity).
Notation "' pat <- c ;; k" := (bind c (fun x => match x with pat => k end))
  (at level 61, pat pattern, c at next level, right associativity).

(** ** Data model *)

Inductive Sentiment : Type := Positive | Negative | Neutral.

Definition Sentiment_eqb (a b : Sentiment) : bool :=
  match a, b with
  | Positive, Positive | Negative, Negative | Neutral, Neutral => true
  | _, _ => false
  end.

(** A review dictionary [{'text': ..., 'rating': ..., 'sentiment': ...}]. *)
Record Review : Type := mkReview {
  text : string;
  rating : Q;
  sentiment : Sentiment
}.

(** A [defaultdict(list)] keyed by aspect name.  Python dictionaries iterate
    in insertion order, which [generate_summary] relies on, so the map is an
    association list with one entry per key, in order of first insertion. *)
Definition Themes : Type := list (string * list string).

(** [themes[aspect].append(s)] *)
Fixpoint themes_append (themes : Themes) (aspect s : string) : Themes :=
  match themes with
  | [] => [(aspect, [s])]
  | (k, comments) :: rest =>
      if (k =? aspect)%string then (k, (comments ++ [s])%list) :: rest
      else (k, comments) :: themes_append rest aspect s
  end.

(** [themes.get(aspect, [])] *)
Fixpoint themes_get (themes : Themes) (aspect : string) : list string :=
  match themes with
  | [] => []
  | (k, comments) :: rest =>
      if (k =? aspect)%string then comments else themes_get rest aspect
  end.

Definition keys (themes : Themes) : list string := map fst themes.

(** The JSON answer of the endpoint together with its status code. *)
Inductive Response : Type :=
| JsonSummary (summary : string) (status : nat)
| JsonError (error : string) (status : nat).

(** ** URL handling *)

Definition is_asin_char (c : ascii) : bool :=
  between 65 90 (code c) || between 48 57 (code c).

(** [[A-Z0-9]{10}] matched at the head of [s]; the matched group. *)
Definition match_asin (s : string) : option string :=
  let g := take 10 s in
  if (length g =? 10)%nat && forallb is_asin_char (list_ascii_of_string g)
  then Some g else None.

(** [re.search(marker + '([A-Z0-9]{10})', s)]: group 1 of the leftmost
    match, for a literal [marker]. *)
Fixpoint re_search (marker s : string) : option string :=
  match (if prefix marker s then match_asin (drop (length marker) s) else None) with
  | Some g => Some g
  | None =>
      match s with
      | EmptyString => None
      | String _ s' => re_search marker s'
      end
  end.

(** The two searches of [clean_url], the second tried when the first fails. *)
Definition asin_match (url : string) : option string :=
  match re_search "/dp/" url with
  | Some g => Some g
  | None => re_search "/product/" url
  end.

(** ** class AmazonReviewAnalyzer *)

Section AmazonReviewAnalyzer.

(** [TextBlob(text).sentiment.polarity] *)
Variable polarity : string -> Q.
(** [urllib.parse.urlparse(url).netloc] *)
Variable netloc : string -> result string.
(** What a review listing shows after [driver.get] and the wait: the
    [div[data-hook="review"]] elements, each giving its body text and its
    parsed star rating, or raising while it is read. *)
Variable review_elements : string -> result (list (result (string * Q))).
(** The text of the [productTitle] element of a product page. *)
Variable product_title_text : string -> result string.
(** [Series.mean()] of a non-empty float64 column: the double [pandas]
    computes from the ratings in their order. *)
Variable series_mean : list Q -> Q.
(** [f"{x:.1f}"] of a double. *)
Variable format_1f : Q -> string.

Definition clean_url (url : string) : result (string * string) :=
  rbind (netloc url) (fun domain =>
    match asin_match url with
    | None => Raise (ValueError "Could not find valid ASIN in URL")
    | Some asin => Ok (domain, asin)
    end).

Definition get_review_url (domain asin : string) : string :=
  "https://" ++ domain ++ "/product-reviews/" ++ asin ++ "/".

Definition analyze_sentiment (text : string) : Sentiment :=
  let polarity := polarity text in
  if gtb polarity (1 # 10) then Positive
  else if ltb polarity (- (1 # 10)) then Negative
  else Neutral.

(** The loop over the review elements of one page: an element that raises
    is skipped. *)
Definition parse_reviews (elements : list (result (string * Q)))
    (reviews : list Review) : list Review :=
  fold_left
    (fun reviews element =>
       match element with
       | Ok (body, rating) =>
           let review_text := strip body in
           (reviews ++ [mkReview review_text rating (analyze_sentiment review_text)])%list
       | Raise _ => reviews
       end)
    elements reviews.

(** The body of the inner [try] for one page. *)
Definition fetch_page (review_url : string) (page : nat)
    (reviews : list Review) : M (list Review) :=
  let page_url := review_url ++ "?pageNumber=" ++ str_nat page in
  _ <- driver_get page_url ;;
  elements <- lift (review_elements page_url) ;;
  ret (parse_reviews elements reviews).

(** [for page in ...]: a page that raises ends the loop ([break]) and keeps
    the reviews collected so far. *)
Fixpoint fetch_pages (review_url : string) (pages : list nat)
    (reviews : list Review) : M (list Review) :=
  match pages with
  | [] => ret reviews
  | page :: rest =>
      fun d =>
        match fetch_page review_url page reviews d with
        | (Ok reviews', d') => fetch_pages review_url rest reviews' d'
        | (Raise _, d') => (Ok reviews, d')
        end
  end.

Definition fetch_reviews_selenium (url : string) (num_pages : nat)
    : M (list Review) :=
  try_except
    ('(domain, asin) <- lift (clean_url url) ;;
     let review_url := get_review_url domain asin in
     fetch_pages review_url (seq 1 num_pages) [])
    (fun _ => ret []).

(** *** generate_summary and its nested extract_themes *)

Definition common_aspects : list (string * list string) :=
  [ ("quality", ["quality"; "build"; "material"; "durability"; "construction"]);
    ("value", ["price"; "value"; "worth"; "cost"; "expensive"; "cheap"]);
    ("performance", ["performance"; "speed"; "fast"; "slow"; "efficient"]);
    ("features", ["feature"; "functionality"; "options"; "capabilities"]);
    ("design", ["design"; "look"; "aesthetic"; "style"; "appearance"]);
    ("usability", ["easy"; "simple"; "intuitive"; "user-friendly"; "difficult"]);
    ("reliability", ["reliable"; "consistent"; "stable"; "issues"; "problems"]);
    ("support", ["support"; "customer service"; "warranty"; "help"]) ].

(** [any(keyword in s for keyword in keywords)] *)
Definition any_keyword_in (keywords : list string) (s : string) : bool :=
  existsb (fun keyword => contains keyword s) keywords.

(** [[s.strip() for s in sentences if any(...) and s.strip()]] *)
Definition relevant_sentences (keywords : list string)
    (sentences : list string) : list string :=
  map strip
    (filter (fun s => any_keyword_in keywords s && nonempty (strip s)) sentences).

(** The body of [for aspect, keywords in common_aspects.items()]. *)
Definition extract_aspect (text : string) (themes : Themes)
    (entry : string * list string) : Themes :=
  let '(aspect, keywords) := entry in
  if any_keyword_in keywords text then
    let sentences := split "." text in
    match relevant_sentences keywords sentences with
    | s :: _ => themes_append themes aspect s
    | [] => themes
    end
  else themes.

Definition extract_themes_from (aspects : list (string * list string))
    (review_list : list Review) : Themes :=
  fold_left
    (fun themes review =>
       let text := lower (text review) in
       fold_left (extract_aspect text) aspects themes)
    review_list [].

Definition extract_themes (review_list : list Review) : Themes :=
  extract_themes_from common_aspects review_list.

(** [df['rating'].mean()]: the frame of an empty list has no column. *)
Definition rating_mean (reviews : list Review) : result Q :=
  match reviews with
  | [] => Raise (KeyError "rating")
  | _ :: _ => Ok (series_mean (map rating reviews))
  end.

Definition has_sentiment (s : Sentiment) (r : Review) : bool :=
  Sentiment_eqb (sentiment r) s.

(** [len([r for r in reviews if r['sentiment'] == s]) / total * 100] *)
Definition sentiment_percent (s : Sentiment) (reviews : list Review)
    (total_reviews : nat) : result Q :=
  rbind (div (List.length (filter (has_sentiment s) reviews)) total_reviews)
        (fun q => Ok (q * 100)%Q).

(** [for aspect, comments in themes.items(): if comments: ...append(...)] *)
Fixpoint theme_points (items : Themes) (points : list string)
    : result (list string) :=
  match items with
  | [] => Ok points
  | (aspect, comments) :: rest =>
      if truthy comments then
        rbind (max_by length comments) (fun example =>
          theme_points rest
            (points ++ [("the " ++ aspect ++ " (" ++ example ++ ")")%string])%list)
      else theme_points rest points
  end.

(** The block [if themes: summary += lead_in ...], written twice in the
    source: for the positive themes and, with another lead-in, for the
    negative ones. *)
Definition themes_block (lead_in : string) (themes : Themes)
    (summary : string) : result string :=
  if truthy themes then
    let summary := summary ++ lead_in in
    rbind (theme_points themes []) (fun points =>
      if truthy points then
        let summary := summary ++ join ", " (but_last points) in
        rbind (if (1 <? List.length points)%nat
               then rbind (last points) (fun p => Ok (summary ++ ", and " ++ p))
               else rbind (first points) (fun p => Ok (summary ++ p)))
          (fun summary => Ok (summary ++ ". "))
      else Ok summary)
  else Ok summary.

Definition generate_summary (reviews : list Review) (url : string) : M string :=
  if negb (truthy reviews) then ret "No reviews found for analysis."
  else
    product_title <-
      try_except
        (_ <- lift (clean_url url) ;;
         _ <- driver_get url ;;
         title <- lift (product_title_text url) ;;
         ret (strip title))
        (fun _ => ret "Product") ;;
    let total_reviews := List.length reviews in
    avg_rating <- lift (rating_mean reviews) ;;
    let detailed_reviews := filter (fun r => (200 <? length (text r))%nat) reviews in
    let positive_reviews := filter (has_sentiment Positive) detailed_reviews in
    let negative_reviews := filter (has_sentiment Negative) detailed_reviews in
    let neutral_reviews := filter (has_sentiment Neutral) detailed_reviews in
    positive_percent <- lift (sentiment_percent Positive reviews total_reviews) ;;
    negative_percent <- lift (sentiment_percent Negative reviews total_reviews) ;;
    let positive_themes := extract_themes positive_reviews in
    let negative_themes := extract_themes negative_reviews in
    let sentiment_desc :=
      if geb positive_percent 80 then "overwhelmingly positive reviews"
      else if geb positive_percent 70 then "largely positive reviews"
      else if geb positive_percent 60 then "generally positive reviews"
      else if geb negative_percent 60 then "generally negative reviews"
      else "mixed reviews" in
    let summary :=
      "Based on a detailed analysis of " ++ str_nat total_reviews
      ++ " customer reviews, the " ++ product_title ++ " has received "
      ++ sentiment_desc ++ " with an average rating of "
      ++ format_1f avg_rating ++ " out of 5 stars. " in
    summary <-
      lift (themes_block "The standout features praised by customers include "
              positive_themes summary) ;;
    summary <-
      (if truthy neutral_reviews then
         balanced_opinion <-
           lift (max_by (fun x => length (text x)) neutral_reviews) ;;
         ret (summary ++ "A balanced perspective from users notes that "
                ++ take 150 (text balanced_opinion) ++ "... ")
       else ret summary) ;;
    summary <-
      lift (themes_block "However, some users have expressed concerns about "
              negative_themes summary) ;;
    let summary :=
      if geb avg_rating 4 && geb positive_percent 70 then
        (summary ++ "Given the substantial positive feedback and high average rating, this product comes highly recommended by the majority of users, particularly for those valuing ")
        ++ join " and " (firstn 2 (keys positive_themes)) ++ "."
      else if geb avg_rating (35 # 10) && geb positive_percent 60 then
        summary ++ "While most users are satisfied with their purchase, potential buyers should weigh the praised aspects against the reported limitations to ensure it meets their specific needs."
      else
        summary ++ "Given the mixed feedback, potential buyers may want to explore other options or consider specific use cases before deciding." in
    ret summary.

Definition scrape_amazon_reviews (url : string) : M string :=
  reviews <- fetch_reviews_selenium url 500 ;;
  generate_summary reviews url.

(** ** The [/analyze] endpoint; [url] is [data.get('url')]. *)
Definition analyze (url : option string) : M Response :=
  match url with
  | None | Some EmptyString => ret (JsonError "URL is required." 400)
  | Some url =>
      try_except
        (summary <- scrape_amazon_reviews url ;;
         ret (JsonSummary summary 200))
        (fun e => ret (JsonError (str_exn e) 500))
  end.

End AmazonReviewAnalyzer.

(** ** The narrative, clause by clause

    The specification describes the summary as a fixed sequence of clauses.
    The definitions of this module follow that description; the theorems
    below compare them with [generate_summary]. *)

Module Narrative.

Section Numbers.

Variable series_mean : list Q -> Q.
Variable format_1f : Q -> string.

Definition total_count (reviews : list Review) : nat := List.length reviews.

Definition count_of (s : Sentiment) (reviews : list Review) : nat :=
  List.length (filter (has_sentiment s) reviews).

Definition rating_sum (reviews : list Review) : Q :=
  fold_left Qplus (map rating reviews) 0%Q.

(** The arithmetic mean of the ratings, without rounding. *)
Definition exact_mean (reviews : list Review) : Q :=
  (rating_sum reviews / inject_Z (Z.of_nat (total_count reviews)))%Q.

(** The mean rating as the code has it: the double computed by [pandas]. *)
Definition mean_rating (reviews : list Review) : Q :=
  series_mean (map rating reviews).

(** Reviews whose text is longer than 200 characters, with a given label. *)
Definition detailed (s : Sentiment) (reviews : list Review) : list Review :=
  filter (has_sentiment s)
    (filter (fun r => (200 <? length (text r))%nat) reviews).

Definition positive_themes (reviews : list Review) : Themes :=
  extract_themes (detailed Positive reviews).

Definition negative_themes (reviews : list Review) : Themes :=
  extract_themes (detailed Negative reviews).

Definition opening (reviews : list Review) (title desc : string) : string :=
  "Based on a detailed analysis of " ++ str_nat (total_count reviews)
  ++ " customer reviews, the " ++ title ++ " has received "
  ++ desc ++ " with an average rating of "
  ++ format_1f (mean_rating reviews) ++ " out of 5 stars. ".

(** The element of largest key in [x :: xs], the first one among equals. *)
Definition first_longest {A} (key : A -> nat) (x : A) (xs : list A) : A :=
  fold_left (fun best y => if (key best <? key y)%nat then y else best) xs x.

(** The longest comment, the first one among equally long ones. *)
Definition longest (comments : list string) : string :=
  match comments with
  | [] => ""
  | c :: cs => first_longest length c cs
  end.

Definition item (entry : string * list string) : string :=
  "the " ++ fst entry ++ " (" ++ longest (snd entry) ++ ")".

(** Items separated by commas, the last one introduced by ", and". *)
Definition enumerate (points : list string) : string :=
  match rev points with
  | [] => ""
  | [p] => p
  | p :: _ => join ", " (removelast points) ++ ", and " ++ p
  end.

Definition positive_lead_in : string :=
  "The standout features praised by customers include ".

Definition negative_lead_in : string :=
  "However, some users have expressed concerns about ".

Definition neutral_lead_in : string :=
  "A balanced perspective from users notes that ".

Definition strong_recommendation : string :=
  "Given the substantial positive feedback and high average rating, this product comes highly recommended by the majority of users, particularly for those valuing ".

Definition cautious_satisfaction : string :=
  "While most users are satisfied with their purchase, potential buyers should weigh the praised aspects against the reported limitations to ensure it meets their specific needs.".

Definition mixed_feedback : string :=
  "Given the mixed feedback, potential buyers may want to explore other options or consider specific use cases before deciding.".

(** A themes clause: absent without themes, else the lead-in, one item
    per aspect and a full stop. *)
Definition themes_clause (lead_in : string) (themes : Themes) : string :=
  match themes with
  | [] => ""
  | _ :: _ => lead_in ++ enumerate (map item themes) ++ ". "
  end.

(** The overall descriptor, by counts: [p] positive and [m] negative
    reviews out of [n]. *)
Definition descriptor (reviews : list Review) : string :=
  let n := Z.of_nat (total_count reviews) in
  let p := Z.of_nat (count_of Positive reviews) in
  let m := Z.of_nat (count_of Negative reviews) in
  if (80 * n <=? 100 * p)%Z then "overwhelmingly positive reviews"
  else if (70 * n <=? 100 * p)%Z then "largely positive reviews"
  else if (60 * n <=? 100 * p)%Z then "generally positive reviews"
  else if (60 * n <=? 100 * m)%Z then "generally negative reviews"
  else "mixed reviews".

(** The neutral clause quotes the longest detailed neutral review. *)
Definition neutral_clause (reviews : list Review) : string :=
  match detailed Neutral reviews with
  | [] => ""
  | r :: rs =>
      neutral_lead_in
      ++ take 150 (text (first_longest (fun x => length (text x)) r rs))
      ++ "... "
  end.

Definition closing (reviews : list Review) : string :=
  let n := Z.of_nat (total_count reviews) in
  let p := Z.of_nat (count_of Positive reviews) in
  if Qle_bool 4 (mean_rating reviews) && (70 * n <=? 100 * p)%Z then
    strong_recommendation
    ++ join " and " (firstn 2 (keys (positive_themes reviews))) ++ "."
  else if Qle_bool (35 # 10) (mean_rating reviews) && (60 * n <=? 100 * p)%Z then
    cautious_satisfaction
  else mixed_feedback.

(** The clauses in their fixed order. *)
Definition summary (reviews : list Review) (title : string) : string :=
  opening reviews title (descriptor reviews)
  ++ themes_clause positive_lead_in (positive_themes reviews)
  ++ neutral_clause reviews
  ++ themes_clause negative_lead_in (negative_themes reviews)
  ++ closing reviews.

(** The resolved product title: the fallback when the lookup raises. *)
Definition title_of (netloc product_title_text : string -> result string)
    (url : string) : string :=
  match clean_url netloc url with
  | Raise _ => "Product"
  | Ok _ =>
      match product_title_text url with
      | Ok title => strip title
      | Raise _ => "Product"
      end
  end.

(** The driver after the title lookup: the product page was requested
    exactly when the URL has an identifier. *)
Definition driver_after_title (netloc : string -> result string)
    (url : string) (d : Driver) : Driver :=
  match clean_url netloc url with
  | Raise _ => d
  | Ok _ => (d ++ [url])%list
  end.

(** The first segment of [text], split at periods, that holds one of the
    keywords and is not blank. *)
Definition first_relevant (keywords : list string) (text : string)
    : option string :=
  find (fun s => any_keyword_in keywords s && nonempty (strip s))
       (split "." text).

(** What a lower-cased text adds to the example list of an aspect: the
    first relevant segment, trimmed, when the text holds a keyword. *)
Definition examples_of (keywords : list string) (text : string) : list string :=
  if any_keyword_in keywords text then
    match first_relevant keywords text with
    | Some s => [strip s]
    | None => []
    end
  else [].

(** What one review adds to the example list of an aspect. *)
Definition contribution (keywords : list string) (r : Review) : list string :=
  examples_of keywords (lower (text r)).

End Numbers.

End Narrative.

(** ** Predicates of the statements *)

(** Some character of [s] is not white space. *)
Fixpoint has_nonspace (s : string) : bool :=
  match s with
  | EmptyString => false
  | String c s' => negb (is_space c) || has_nonspace s'
  end.

(** [sep] does not occur in [s]. *)
Fixpoint no_char (sep : ascii) (s : string) : bool :=
  match s with
  | EmptyString => true
  | String c s' => negb (Ascii.eqb c sep) && no_char sep s'
  end.

(** Every character of [s] passes the test [p]. *)
Fixpoint all_chars (p : ascii -> bool) (s : string) : bool :=
  match s with
  | EmptyString => true
  | String c s' => p c && all_chars p s'
  end.

(** A keyword that cannot straddle two segments nor be blank. *)
Definition keyword_ok (k : string) : bool := no_char "." k && has_nonspace k.

(** An example list as [extract_themes] builds them. *)
Definition comments_ok (comments : list string) : Prop :=
  comments <> [] /\ Forall (fun s => s <> "") comments.

Definition themes_ok (themes : Themes) : Prop :=
  Forall (fun entry => comments_ok (snd entry)) themes.

(** ** Doubles

    IEEE binary64 arithmetic through the kernel's primitive floats, read
    back as rationals.  It serves the sample data and the counterexamples;
    the analyzer takes the mean and the printing as parameters. *)

Module Float64.

Definition of_Z (z : Z) : PrimFloat.float :=
  match z with
  | Z0 => PrimFloat.zero
  | Zpos _ => PrimFloat.of_uint63 (Uint63.of_Z z)
  | Zneg n => PrimFloat.opp (PrimFloat.of_uint63 (Uint63.of_Z (Zpos n)))
  end.

(** The double nearest to a quotient of two integers below 2^53. *)
Definition of_Q (q : Q) : PrimFloat.float :=
  PrimFloat.div (of_Z (Qnum q)) (of_Z (Z.pos (Qden q))).

(** The value of a finite double. *)
Definition to_Q (f : PrimFloat.float) : Q :=
  match FloatOps.Prim2SF f with
  | SpecFloat.S754_finite sign m e =>
      let n := if sign then Z.neg m else Z.pos m in
      match e with
      | Z0 => inject_Z n
      | Zpos k => inject_Z (n * 2 ^ Zpos k)
      | Zneg k => Qmake n (2 ^ k)
      end
  | _ => 0%Q
  end.

(** A decimal literal as Python reads it: [double (31 # 10)] is [3.1]. *)
Definition double (q : Q) : Q := to_Q (of_Q q).

Definition sum_left (column : list Q) : PrimFloat.float :=
  fold_left PrimFloat.add (map of_Q column) PrimFloat.zero.

(** The mean of a column added up from left to right. *)
Definition mean_left (column : list Q) : Q :=
  to_Q (PrimFloat.div (sum_left column)
          (of_Z (Z.of_nat (List.length column)))).

(** The mean of a column added up as a reduction that starts from its
    first value: the first value plus the sum of the others. *)
Definition mean_first_rest (column : list Q) : Q :=
  match column with
  | [] => 0%Q
  | x :: rest =>
      to_Q (PrimFloat.div (PrimFloat.add (of_Q x) (sum_left rest))
              (of_Z (Z.of_nat (List.length column))))
  end.

(** [(count / total) * 100] as the code computes it, in doubles. *)
Definition percent (count total : Z) : PrimFloat.float :=
  PrimFloat.mul (PrimFloat.div (of_Z count) (of_Z total)) (of_Z 100).

(** The test [percent >= k] on the double gives what the counts give. *)
Definition threshold_agrees (total count k : Z) : bool :=
  Bool.eqb (PrimFloat.leb (of_Z k) (percent count total))
           (k * total <=? 100 * count)%Z.

(** Agreement at every count from 0 to [total], for the three thresholds. *)
Definition agrees_everywhere (total : nat) : bool :=
  forallb
    (fun count =>
       forallb (threshold_agrees (Z.of_nat total) (Z.of_nat count)) [60; 70; 80]%Z)
    (seq 0 (S total)).

(** Agreement at the two counts around each threshold: the smallest count
    that reaches it and the one before. *)
Definition agrees_at_thresholds (total : nat) : bool :=
  forallb
    (fun k =>
       let reach := ((k * Z.of_nat total + 99) / 100)%Z in
       threshold_agrees (Z.of_nat total) reach k
       && threshold_agrees (Z.of_nat total) (Z.max 0 (reach - 1)) k)
    [60; 70; 80]%Z.

Definition round_half_even (num : Z) (den : positive) : Z :=
  let fl := (num / Z.pos den)%Z in
  let r := (num mod Z.pos den)%Z in
  match (2 * r ?= Z.pos den)%Z with
  | Lt => fl
  | Gt => (fl + 1)%Z
  | Eq => if Z.even fl then fl else (fl + 1)%Z
  end.

(** The value of a double printed to one decimal place, ties to even. *)
Definition format_1f (x : Q) : string :=
  let tenths := round_half_even (Z.abs (Qnum x) * 10) (Qden x) in
  (if (Qnum x <? 0)%Z then "-" else "")
  ++ NilZero.string_of_uint (N.to_uint (Z.to_N (tenths / 10)))
  ++ "." ++ NilZero.string_of_uint (N.to_uint (Z.to_N (tenths mod 10))).

End Float64.

(** ** Sample data *)

Module Sample.

Definition filler : string :=
  "                                                                                                                                                                                                        ".

Definition polarity (t : string) : Q :=
  if contains "great" t then (1 # 2)%Q
  else if contains "poor" t then (- (1 # 2))%Q
  else 0%Q.

Definition netloc (url : string) : result string := Ok "www.amazon.com".

Definition listing : string :=
  "https://www.amazon.com/product-reviews/B000000001/?pageNumber=1".

Definition review_elements (url : string)
    : result (list (result (string * Q))) :=
  if (url =? listing)%string then
    Ok [ Ok ("  This is great Quality. and cheap price too!" ++ filler ++ "x ", 5%Q);
         Raise IndexError;
         Ok ("poor build. Support was slow" ++ filler ++ "y", 1%Q);
         Ok ("meh, it is a thing. Looks ok" ++ filler ++ "enough", 3%Q) ]
  else Raise WebDriverException.

Definition product_title_text (url : string) : result string := Ok " Widget ".

Definition series_mean : list Q -> Q := Float64.mean_left.

Definition format_1f : Q -> string := Float64.format_1f.

(** Seven five-star and thirteen four-star reviews, all with text "ok". *)
Definition stars (n : Z) : Review := mkReview "ok" (inject_Z n) Positive.
Definition twenty : list Review := (repeat (stars 5) 7 ++ repeat (stars 4) 13)%list.

(** Three ratings whose float sum depends on the order. *)
Definition rated (q : Q) : Review := mkReview "ok" (Float64.double q) Neutral.
Definition three : list Review := [rated (31 # 10); rated (41 # 10); rated (48 # 10)].
Definition three' : list Review := [rated (41 # 10); rated (48 # 10); rated (31 # 10)].

(** Four positive reviews rated 1.7, 4.1, 4.1 and 4.1. *)
Definition four : list Review :=
  map (fun q => mkReview "ok" (Float64.double q) Positive)
      [17 # 10; 41 # 10; 41 # 10; 41 # 10].

Definition good : Review :=
  mkReview ("this is great quality. and cheap price too!" ++ filler) 5%Q Positive.
Definition bad : Review :=
  mkReview ("poor build. support was slow" ++ filler) 1%Q Negative.
Definition plain : Review :=
  mkReview ("meh, it is a thing. looks ok" ++ filler ++ "enough") 3%Q Neutral.
Definition short : Review := mkReview "fine" 4%Q Neutral.

Definition reviews : list Review := [good; bad; plain; short].

Definition product_url : string := "https://www.amazon.com/dp/B000000001".
Definition bad_url : string := "https://www.amazon.com/B000000001".

End Sample.

(** ** Page fetching, as a function of what the web answers *)

Module Fetch.

Section Pages.

Variable polarity : string -> Q.
Variable review_elements : string -> result (list (result (string * Q))).

(** The listing URL of one page, as [fetch_page] builds it. *)
Definition page_url (review_url : string) (page : nat) : string :=
  review_url ++ "?pageNumber=" ++ str_nat page.

(** The page loads and shows its review elements. *)
Definition page_ok (review_url : string) (page : nat) : bool :=
  match review_elements (page_url review_url page) with
  | Ok _ => true
  | Raise _ => false
  end.

(** The pages before the first one that fails. *)
Fixpoint good_pages (review_url : string) (pages : list nat) : list nat :=
  match pages with
  | [] => []
  | page :: rest =>
      if page_ok review_url page then page :: good_pages review_url rest
      else []
  end.

(** The reviews read off a list of pages, added to [reviews]. *)
Definition collect (review_url : string) (pages : list nat)
    (reviews : list Review) : list Review :=
  fold_left
    (fun acc page =>
       match review_elements (page_url review_url page) with
       | Ok elements => parse_reviews polarity elements acc
       | Raise _ => acc
       end)
    pages reviews.

End Pages.

(** A product identifier: ten characters, each a capital letter or a digit. *)
Definition is_asin (s : string) : Prop :=
  length s = 10%nat /\ forallb is_asin_char (list_ascii_of_string s) = true.

(** A review with its text in lower case. *)
Definition lower_review (r : Review) : Review :=
  mkReview (lower (text r)) (rating r) (sentiment r).

(** The elements of a page that were read without raising. *)
Definition readable (elements : list (result (string * Q))) : nat :=
  List.length
    (filter (fun e => match e with Ok _ => true | Raise _ => false end) elements).

End Fetch.

(** ** Facts about the built-ins *)

Section BuiltinFacts.

Lemma nonempty_rstrip (s : string) : nonempty (rstrip s) = has_nonspace s.
Proof.
  induction s as [|c s IH]; simpl; [reflexivity|].
  rewrite <- IH.
  destruct (rstrip s); simpl.
  - destruct (is_space c); reflexivity.
  - apply eq_sym, orb_true_r.
Qed.

Lemma has_nonspace_lstrip (s : string) : has_nonspace (lstrip s) = has_nonspace s.
Proof.
  induction s as [|c s IH]; simpl; [reflexivity|].
  destruct (is_space c) eqn:E; simpl; [exact IH|].
  rewrite E; reflexivity.
Qed.

Lemma nonempty_strip (s : string) : nonempty (strip s) = has_nonspace s.
Proof.
  unfold strip. rewrite nonempty_rstrip. apply has_nonspace_lstrip.
Qed.

Lemma nonempty_true (s : string) : nonempty s = true <-> s <> "".
Proof.
  destruct s; simpl; split; intro H; try discriminate; try reflexivity.
  now elim H.
Qed.

Lemma prefix_has_nonspace (k t : string) :
  prefix k t = true -> has_nonspace k = true -> has_nonspace t = true.
Proof.
  revert t; induction k as [|a k IH]; intros t Hp Hk; [discriminate|].
  destruct t as [|c t]; simpl in Hp; [discriminate|].
  destruct (ascii_dec a c) as [->|]; [|discriminate].
  simpl in *. destruct (is_space c); simpl in *; auto.
Qed.

Lemma contains_cons (k : string) (c : ascii) (t : string) :
  contains k t = true -> contains k (String c t) = true.
Proof.
  intro H. change (contains k (String c t))
    with (if prefix k (String c t) then true else contains k t).
  rewrite H. now destruct (prefix k (String c t)).
Qed.

Lemma prefix_contains (k t : string) : prefix k t = true -> contains k t = true.
Proof.
  intro H. destruct t; simpl; simpl in H; rewrite H; reflexivity.
Qed.

Lemma contains_has_nonspace (k t : string) :
  contains k t = true -> has_nonspace k = true -> has_nonspace t = true.
Proof.
  induction t as [|c t IH]; intros Hc Hk.
  - destruct k; simpl in *; discriminate.
  - change (contains k (String c t))
      with (if prefix k (String c t) then true else contains k t) in Hc.
    destruct (prefix k (String c t)) eqn:E.
    + eapply prefix_has_nonspace; eauto.
    + simpl. rewrite (IH Hc Hk). apply orb_true_r.
Qed.

Lemma split_not_nil (sep : ascii) (s : string) : split sep s <> [].
Proof.
  destruct s as [|c s]; simpl; [discriminate|].
  destruct (Ascii.eqb c sep); [discriminate|].
  destruct (split sep s); discriminate.
Qed.

(** A separator-free prefix of the text is a prefix of its first segment. *)
Lemma prefix_split_head (sep : ascii) (k t : string) :
  prefix k t = true -> no_char sep k = true ->
  exists seg segs, split sep t = seg :: segs /\ prefix k seg = true.
Proof.
  revert k; induction t as [|c t IH]; intros k Hp Hk.
  - destruct k; [|discriminate]. exists "", []. split; reflexivity.
  - destruct k as [|a k].
    + destruct (split sep (String c t)) as [|seg segs] eqn:E.
      * now apply split_not_nil in E.
      * exists seg, segs. split; [reflexivity|]. now destruct seg.
    + simpl in Hp. destruct (ascii_dec a c) as [->|]; [|discriminate].
      simpl in Hk. apply andb_true_iff in Hk as [Hc Hk].
      apply negb_true_iff in Hc.
      destruct (IH k Hp Hk) as (seg & segs & Hs & Hseg).
      exists (String c seg), segs. simpl. rewrite Hc, Hs. split; [reflexivity|].
      destruct (ascii_dec c c); [assumption|contradiction].
Qed.

(** A separator-free needle found in the text lies within one segment. *)
Lemma contains_split (sep : ascii) (k t : string) :
  no_char sep k = true -> contains k t = true ->
  exists seg, In seg (split sep t) /\ contains k seg = true.
Proof.
  intros Hk. induction t as [|c t IH]; intro Hc.
  - exists "". split; [now left|assumption].
  - change (contains k (String c t))
      with (if prefix k (String c t) then true else contains k t) in Hc.
    destruct (prefix k (String c t)) eqn:Hp.
    + destruct (prefix_split_head sep _ _ Hp Hk) as (seg & segs & Hs & Hseg).
      exists seg. rewrite Hs. split; [now left|now apply prefix_contains].
    + destruct (IH Hc) as (seg & Hin & Hseg). simpl.
      destruct (Ascii.eqb c sep).
      * exists seg. split; [now right|assumption].
      * destruct (split sep t) as [|h r]; [contradiction|].
        destruct Hin as [<-|Hin].
        -- exists (String c h). split; [now left|now apply contains_cons].
        -- exists seg. split; [now right|assumption].
Qed.

Lemma length_take (n : nat) (s : string) :
  (n <= length s)%nat -> length (take n s) = n.
Proof.
  unfold take. revert s; induction n as [|n IH]; intros s H.
  - now destruct s.
  - destruct s as [|c s]; simpl in *; [lia|]. rewrite IH; lia.
Qed.

(** The first element satisfying a test, through [filter]. *)
Lemma filter_head {A} (P : A -> bool) (l : list A) :
  match filter P l with
  | [] => find P l = None
  | x :: _ => find P l = Some x
  end.
Proof.
  induction l as [|a l IH]; simpl; [reflexivity|].
  destruct (P a); [reflexivity|exact IH].
Qed.

Lemma find_first {A} (P : A -> bool) (l : list A) (x : A) :
  find P l = Some x ->
  exists pre post, l = (pre ++ x :: post)%list /\ P x = true
                   /\ forall y, In y pre -> P y = false.
Proof.
  induction l as [|a l IH]; simpl; [discriminate|].
  destruct (P a) eqn:E; intro H.
  - injection H as <-. exists [], l. repeat split; auto. intros y [].
  - destruct (IH H) as (pre & post & -> & Hx & Hpre).
    exists (a :: pre), post. repeat split; auto.
    intros y [<-|Hy]; auto.
Qed.

End BuiltinFacts.

Section SelectionFacts.

Context {A : Type} (key : A -> nat).

Lemma first_longest_spec (xs pre post : list A) (b : A) :
  (forall y, In y pre -> (key y < key b)%nat) ->
  (forall y, In y post -> (key y <= key b)%nat) ->
  exists l1 l2,
    (pre ++ b :: post ++ xs = l1 ++ Narrative.first_longest key b xs :: l2)%list
    /\ (forall y, In y l1 -> (key y < key (Narrative.first_longest key b xs))%nat)
    /\ (forall y, In y l2 -> (key y <= key (Narrative.first_longest key b xs))%nat).
Proof.
  unfold Narrative.first_longest.
  revert pre post b; induction xs as [|x xs IH]; intros pre post b Hpre Hpost.
  - exists pre, post. rewrite app_nil_r. simpl. auto.
  - simpl. destruct (key b <? key x)%nat eqn:E.
    + apply Nat.ltb_lt in E.
      destruct (IH (pre ++ b :: post)%list [] x) as (l1 & l2 & Heq & H1 & H2).
      * intros y Hy. apply in_app_or in Hy as [Hy|[<-|Hy]]; auto.
        -- specialize (Hpre y Hy). lia.
        -- specialize (Hpost y Hy). lia.
      * intros y [].
      * exists l1, l2. repeat split; auto.
        rewrite <- Heq. rewrite <- app_assoc. reflexivity.
    + apply Nat.ltb_ge in E.
      destruct (IH pre (post ++ [x])%list b) as (l1 & l2 & Heq & H1 & H2); auto.
      * intros y Hy. apply in_app_or in Hy as [Hy|[<-|[]]]; auto.
      * exists l1, l2. repeat split; auto.
        rewrite <- Heq. rewrite <- app_assoc. reflexivity.
Qed.

Lemma max_by_cons (x : A) (xs : list A) :
  max_by key (x :: xs) = Ok (Narrative.first_longest key x xs).
Proof. reflexivity. Qed.

(** [max] with a key returns the first element of maximal key. *)
Lemma max_by_spec (l : list A) (best : A) :
  max_by key l = Ok best ->
  exists l1 l2,
    l = (l1 ++ best :: l2)%list
    /\ (forall y, In y l1 -> (key y < key best)%nat)
    /\ (forall y, In y l2 -> (key y <= key best)%nat).
Proof.
  destruct l as [|x xs]; [discriminate|].
  rewrite max_by_cons. intro H. injection H as <-.
  destruct (first_longest_spec xs [] [] x) as (l1 & l2 & Heq & H1 & H2);
    try (intros y []).
  exists l1, l2. auto.
Qed.

End SelectionFacts.

Section RationalFacts.

Local Open Scope Q_scope.

Lemma Qplus_swap (a x y : Q) : a + y + x = a + x + y.
Proof.
  destruct a as [na da], x as [nx dx], y as [ny dy].
  unfold Qplus; simpl. f_equal.
  - rewrite !Pos2Z.inj_mul. ring.
  - lia.
Qed.

Lemma rating_sum_perm (l l' : list Review) :
  Permutation l l' ->
  forall a, fold_left Qplus (map rating l) a = fold_left Qplus (map rating l') a.
Proof.
  induction 1 as [|x l l' _ IH|x y l|l l' l'' _ IH1 _ IH2]; intro a; simpl.
  - reflexivity.
  - apply IH.
  - now rewrite Qplus_swap.
  - now rewrite IH1.
Qed.

Lemma count_perm (f : Review -> bool) (l l' : list Review) :
  Permutation l l' ->
  List.length (filter f l) = List.length (filter f l').
Proof.
  induction 1 as [|x l l' _ IH|x y l|l l' l'' _ IH1 _ IH2]; simpl.
  - reflexivity.
  - destruct (f x); simpl; congruence.
  - destruct (f x), (f y); reflexivity.
  - congruence.
Qed.

(** A percentage reaches a threshold exactly when the counts do. *)
Lemma percent_geb (p n : nat) (k : Z) :
  (0 < n)%nat ->
  geb (inject_Z (Z.of_nat p) / inject_Z (Z.of_nat n) * 100) (inject_Z k)
  = (k * Z.of_nat n <=? 100 * Z.of_nat p)%Z.
Proof.
  intro Hn. unfold geb.
  apply eq_true_iff_eq. rewrite Qle_bool_iff, Z.leb_le.
  destruct n as [|n]; [lia|].
  change (Z.of_nat (S n)) with (Z.pos (Pos.of_succ_nat n)).
  generalize (Z.of_nat p) (Pos.of_succ_nat n); intros zp q.
  unfold Qle, Qdiv, Qmult, Qinv, inject_Z. cbn [Qnum Qden].
  rewrite Pos.mul_1_r. lia.
Qed.

End RationalFacts.

Section ThemeFacts.

Lemma append_assoc (a b c : string) : (a ++ b) ++ c = a ++ (b ++ c).
Proof. induction a as [|x a IH]; simpl; [reflexivity|now rewrite IH]. Qed.

Lemma append_nil_r (a : string) : a ++ "" = a.
Proof. induction a as [|x a IH]; simpl; [reflexivity|now rewrite IH]. Qed.

Lemma themes_get_append (th : Themes) (a' s a : string) :
  themes_get (themes_append th a' s) a
  = if (a' =? a)%string then (themes_get th a ++ [s])%list else themes_get th a.
Proof.
  induction th as [|[k c] th IH]; simpl.
  - destruct (a' =? a)%string; reflexivity.
  - destruct (String.eqb_spec k a') as [->|Hk]; simpl.
    + destruct (a' =? a)%string; reflexivity.
    + rewrite IH. destruct (String.eqb_spec k a) as [->|Ha]; [|reflexivity].
      destruct (String.eqb_spec a' a) as [->|]; [contradiction|reflexivity].
Qed.

Lemma extract_aspect_get (text : string) (th : Themes) (aspect : string)
    (kws : list string) (a : string) :
  themes_get (extract_aspect text th (aspect, kws)) a
  = (themes_get th a
     ++ if (aspect =? a)%string then Narrative.examples_of kws text else [])%list.
Proof.
  unfold extract_aspect, Narrative.examples_of, Narrative.first_relevant,
    relevant_sentences.
  destruct (any_keyword_in kws text).
  - pose proof (filter_head
      (fun s => any_keyword_in kws s && nonempty (strip s)) (split "." text)) as H.
    destruct (filter _ (split "." text)) as [|x l]; rewrite H; simpl.
    + destruct (aspect =? a)%string; now rewrite app_nil_r.
    + rewrite themes_get_append.
      destruct (aspect =? a)%string; [reflexivity|now rewrite app_nil_r].
  - destruct (aspect =? a)%string; now rewrite app_nil_r.
Qed.

Lemma fold_extract_aspect_get (text : string)
    (aspects : list (string * list string)) (th : Themes) (a : string) :
  themes_get (fold_left (extract_aspect text) aspects th) a
  = (themes_get th a
     ++ flat_map (fun e => if (fst e =? a)%string
                           then Narrative.examples_of (snd e) text else [])
          aspects)%list.
Proof.
  revert th; induction aspects as [|[k ks] aspects IH]; intro th;
    cbn [fold_left flat_map fst snd].
  - now rewrite app_nil_r.
  - rewrite IH, extract_aspect_get, app_assoc. reflexivity.
Qed.

Lemma flat_map_other {B} (f : list string -> list B)
    (aspects : list (string * list string)) (a : string) :
  ~ In a (map fst aspects) ->
  flat_map (fun e => if (fst e =? a)%string then f (snd e) else []) aspects = [].
Proof.
  induction aspects as [|[k ks] aspects IH]; simpl; intro H; [reflexivity|].
  destruct (String.eqb_spec k a) as [->|]; [tauto|]. apply IH. tauto.
Qed.

Lemma flat_map_unique {B} (f : list string -> list B)
    (aspects : list (string * list string)) (a : string) (kws : list string) :
  NoDup (map fst aspects) -> In (a, kws) aspects ->
  flat_map (fun e => if (fst e =? a)%string then f (snd e) else []) aspects
  = f kws.
Proof.
  induction aspects as [|[k ks] aspects IH]; simpl; intros Hnd Hin; [contradiction|].
  inversion Hnd as [|? ? Hk Hnd']; subst.
  destruct Hin as [Heq|Hin].
  - injection Heq as -> ->. rewrite String.eqb_refl.
    rewrite flat_map_other by assumption. apply app_nil_r.
  - destruct (String.eqb_spec k a) as [->|].
    + elim Hk. apply (in_map fst) in Hin. exact Hin.
    + simpl. now apply IH.
Qed.

(** The example list of an aspect: one contribution per review, in order. *)
Lemma extract_themes_from_get (aspects : list (string * list string))
    (rl : list Review) (a : string) (kws : list string) :
  NoDup (map fst aspects) -> In (a, kws) aspects ->
  themes_get (extract_themes_from aspects rl) a
  = flat_map (Narrative.contribution kws) rl.
Proof.
  intros Hnd Hin. unfold extract_themes_from.
  change (flat_map (Narrative.contribution kws) rl)
    with (themes_get [] a ++ flat_map (Narrative.contribution kws) rl)%list.
  generalize (@nil (string * list string)) as th.
  induction rl as [|r rl IH]; intro th; cbn [fold_left flat_map].
  - now rewrite app_nil_r.
  - rewrite IH, fold_extract_aspect_get.
    pose proof (flat_map_unique
      (fun ks => Narrative.examples_of ks (lower (text r))) aspects a kws Hnd Hin)
      as Hu.
    cbv beta in Hu. rewrite Hu. now rewrite <- app_assoc.
Qed.

Lemma themes_append_ok (th : Themes) (a s : string) :
  themes_ok th -> s <> "" -> themes_ok (themes_append th a s).
Proof.
  intros Hth Hs. induction Hth as [|[k c] th Hkc Hth IH]; simpl.
  - repeat constructor; simpl; [discriminate|assumption].
  - destruct (k =? a)%string; constructor; auto.
    destruct Hkc as [Hc Hall]. split; simpl in *.
    + now destruct c.
    + apply Forall_app. split; [assumption|now constructor].
Qed.

Lemma extract_aspect_ok (text : string) (th : Themes)
    (e : string * list string) :
  themes_ok th -> themes_ok (extract_aspect text th e).
Proof.
  intro Hth. destruct e as [aspect kws]. unfold extract_aspect, relevant_sentences.
  destruct (any_keyword_in kws text); [|assumption].
  destruct (filter _ (split "." text)) as [|x l] eqn:E; simpl; [assumption|].
  apply themes_append_ok; [assumption|].
  assert (Hx : In x (filter (fun s => any_keyword_in kws s && nonempty (strip s))
                        (split "." text))) by (rewrite E; now left).
  apply filter_In in Hx as [_ Hx]. apply andb_true_iff in Hx as [_ Hx].
  now apply nonempty_true.
Qed.

Lemma extract_themes_ok (rl : list Review) : themes_ok (extract_themes rl).
Proof.
  unfold extract_themes, extract_themes_from.
  assert (H : themes_ok []) by constructor. revert H.
  generalize (@nil (string * list string)) as th.
  induction rl as [|r rl IH]; intros th Hth; cbn [fold_left]; [assumption|].
  apply IH. generalize common_aspects as aspects. intro aspects.
  revert th Hth. induction aspects as [|e aspects IHa]; intros th Hth; simpl;
    [assumption|].
  apply IHa. now apply extract_aspect_ok.
Qed.

End ThemeFacts.

Section ComposerFacts.

Variable netloc : string -> result string.
Variable product_title_text : string -> result string.
Variable series_mean : list Q -> Q.
Variable format_1f : Q -> string.

Lemma theme_points_ok (th : Themes) (pts : list string) :
  themes_ok th -> theme_points th pts = Ok (pts ++ map Narrative.item th)%list.
Proof.
  intro H; revert pts.
  induction H as [|[a c] th [Hc _] _ IH]; intro pts; cbn [theme_points map].
  - now rewrite app_nil_r.
  - destruct c as [|x c]; [now elim Hc|].
    cbn [truthy]. rewrite max_by_cons. cbn [rbind].
    rewrite IH, <- app_assoc. reflexivity.
Qed.

(** The joining code of a themes block against [enumerate]. *)
Lemma enumerate_block (pts : list string) (summary : string) :
  pts <> [] ->
  rbind (if (1 <? List.length pts)%nat
         then rbind (last pts)
                (fun p => Ok ((summary ++ join ", " (but_last pts)) ++ ", and " ++ p))
         else rbind (first pts)
                (fun p => Ok ((summary ++ join ", " (but_last pts)) ++ p)))
        (fun s => Ok (s ++ ". "))
  = Ok (summary ++ Narrative.enumerate pts ++ ". ").
Proof.
  intro Hne. unfold Narrative.enumerate, last.
  destruct (rev pts) as [|p [|q r]] eqn:E.
  - apply (f_equal (@rev string)) in E. rewrite rev_involutive in E. contradiction.
  - apply (f_equal (@rev string)) in E. rewrite rev_involutive in E.
    subst pts. cbn [rev app List.length Nat.ltb Nat.leb first rbind but_last
                    removelast join concat].
    now rewrite append_nil_r, append_assoc.
  - assert (Hlen : (1 <? List.length pts)%nat = true).
    { apply Nat.ltb_lt. rewrite <- length_rev, E. simpl. lia. }
    rewrite Hlen. cbn [rbind]. unfold but_last.
    now rewrite !append_assoc.
Qed.

Lemma themes_block_ok (lead_in : string) (th : Themes) (summary : string) :
  themes_ok th ->
  themes_block lead_in th summary
  = Ok (summary ++ Narrative.themes_clause lead_in th).
Proof.
  intro Hth. unfold themes_block, Narrative.themes_clause.
  destruct th as [|e th]; cbn [truthy].
  - now rewrite append_nil_r.
  - rewrite (theme_points_ok _ _ Hth). cbn [rbind app map truthy].
    rewrite enumerate_block by discriminate.
    now rewrite append_assoc.
Qed.

(** The [try] block that resolves the product title. *)
Lemma title_lookup (url : string) (d : Driver) :
  try_except
    (_ <- lift (clean_url netloc url) ;;
     _ <- driver_get url ;;
     title <- lift (product_title_text url) ;;
     ret (strip title))
    (fun _ => ret "Product") d
  = (Ok (Narrative.title_of netloc product_title_text url),
     Narrative.driver_after_title netloc url d).
Proof.
  unfold try_except, bind, lift, ret, driver_get,
    Narrative.title_of, Narrative.driver_after_title.
  destruct (clean_url netloc url); [|reflexivity].
  destruct (product_title_text url); reflexivity.
Qed.

Lemma sentiment_percent_eq (s : Sentiment) (r : Review) (rs : list Review) :
  sentiment_percent s (r :: rs) (List.length (r :: rs))
  = Ok (inject_Z (Z.of_nat (Narrative.count_of s (r :: rs)))
        / inject_Z (Z.of_nat (Narrative.total_count (r :: rs))) * 100)%Q.
Proof. reflexivity. Qed.

Lemma descriptor_eq (r : Review) (rs : list Review) (pp np : Q) :
  sentiment_percent Positive (r :: rs) (List.length (r :: rs)) = Ok pp ->
  sentiment_percent Negative (r :: rs) (List.length (r :: rs)) = Ok np ->
  (if geb pp 80 then "overwhelmingly positive reviews"
   else if geb pp 70 then "largely positive reviews"
   else if geb pp 60 then "generally positive reviews"
   else if geb np 60 then "generally negative reviews"
   else "mixed reviews")
  = Narrative.descriptor (r :: rs).
Proof.
  rewrite !sentiment_percent_eq. intros Hp Hn.
  injection Hp as <-. injection Hn as <-.
  unfold Narrative.descriptor.
  rewrite <- !(percent_geb _ (Narrative.total_count (r :: rs)))
    by (simpl; lia).
  reflexivity.
Qed.

Lemma closing_eq (r : Review) (rs : list Review) (avg pp : Q) (body : string) :
  rating_mean series_mean (r :: rs) = Ok avg ->
  sentiment_percent Positive (r :: rs) (List.length (r :: rs)) = Ok pp ->
  (if geb avg 4 && geb pp 70 then
     (body ++ Narrative.strong_recommendation)
     ++ join " and " (firstn 2 (keys (Narrative.positive_themes (r :: rs)))) ++ "."
   else if geb avg (35 # 10) && geb pp 60 then
     body ++ Narrative.cautious_satisfaction
   else body ++ Narrative.mixed_feedback)
  = body ++ Narrative.closing series_mean (r :: rs).
Proof.
  rewrite sentiment_percent_eq. intros Ha Hp.
  injection Ha as <-. injection Hp as <-.
  unfold Narrative.closing.
  rewrite <- !(percent_geb _ (Narrative.total_count (r :: rs)))
    by (simpl; lia).
  change (geb ?x 4) with (Qle_bool 4 x).
  change (geb ?x (35 # 10)) with (Qle_bool (35 # 10) x).
  change (series_mean (map rating (r :: rs)))
    with (Narrative.mean_rating series_mean (r :: rs)).
  destruct (Qle_bool 4 _ && _).
  - now rewrite append_assoc.
  - destruct (Qle_bool (35 # 10) _ && _); reflexivity.
Qed.

Lemma bind_lift {A B} (r : result A) (a : A) (k : A -> M B) (d : Driver) :
  r = Ok a -> bind (lift r) k d = k a d.
Proof. intros ->. reflexivity. Qed.

Lemma bind_ok {A B} (c : M A) (a : A) (k : A -> M B) (d d' : Driver) :
  c d = (Ok a, d') -> bind c k d = k a d'.
Proof. unfold bind. intros ->. reflexivity. Qed.

Lemma neutral_eq (reviews : list Review) (summary : string) (d : Driver) :
  (if truthy (Narrative.detailed Neutral reviews) then
     balanced_opinion <-
       lift (max_by (fun x => length (text x)) (Narrative.detailed Neutral reviews)) ;;
     ret (summary ++ "A balanced perspective from users notes that "
            ++ take 150 (text balanced_opinion) ++ "... ")
   else ret summary) d
  = (Ok (summary ++ Narrative.neutral_clause reviews), d).
Proof.
  unfold Narrative.neutral_clause.
  destruct (Narrative.detailed Neutral reviews) as [|r rs]; cbn [truthy].
  - unfold ret. now rewrite append_nil_r.
  - rewrite max_by_cons. reflexivity.
Qed.

(** The composer on a non-empty corpus: the clauses of the narrative in
    their order, after one title lookup. *)
Lemma generate_summary_eq (reviews : list Review) (url : string) (d : Driver) :
  reviews <> [] ->
  generate_summary netloc product_title_text series_mean format_1f reviews url d
  = (Ok (Narrative.summary series_mean format_1f reviews
           (Narrative.title_of netloc product_title_text url)),
     Narrative.driver_after_title netloc url d).
Proof.
  destruct reviews as [|r rs]; [congruence|]. intros _.
  unfold generate_summary. cbn [truthy negb].
  rewrite (bind_ok _ _ _ _ _ (title_lookup url d)).
  generalize (Narrative.driver_after_title netloc url d) as d'. intro d'.
  generalize (Narrative.title_of netloc product_title_text url) as title.
  intro title.
  rewrite (bind_lift _ (Narrative.mean_rating series_mean (r :: rs))) by reflexivity.
  rewrite (bind_lift _ _ _ _ (sentiment_percent_eq Positive r rs)).
  rewrite (bind_lift _ _ _ _ (sentiment_percent_eq Negative r rs)).
  rewrite (descriptor_eq r rs _ _ (sentiment_percent_eq Positive r rs)
             (sentiment_percent_eq Negative r rs)).
  change (filter (has_sentiment ?s) (filter _ (r :: rs)))
    with (Narrative.detailed s (r :: rs)).
  change ("Based on a detailed analysis of " ++ _)
    with (Narrative.opening series_mean format_1f (r :: rs) title (Narrative.descriptor (r :: rs))).
  rewrite (bind_lift _ _ _ _
             (themes_block_ok _ _ _ (extract_themes_ok _))).
  rewrite (bind_ok _ _ _ _ _ (neutral_eq (r :: rs) _ d')).
  rewrite (bind_lift _ _ _ _
             (themes_block_ok _ _ _ (extract_themes_ok _))).
  change (extract_themes (Narrative.detailed Positive (r :: rs)))
    with (Narrative.positive_themes (r :: rs)).
  change (extract_themes (Narrative.detailed Negative (r :: rs)))
    with (Narrative.negative_themes (r :: rs)).
  rewrite (closing_eq r rs _ _ _ eq_refl (sentiment_percent_eq Positive r rs)).
  unfold ret, Narrative.summary.
  now rewrite !append_assoc.
Qed.

End ComposerFacts.

(** ** Properties of the pipeline *)

Section SentimentClassifier.

Local Open Scope Q_scope.



End SentimentClassifier.

Section Composer.

Variable polarity : string -> Q.
Variable netloc : string -> result string.
Variable review_elements : string -> result (list (result (string * Q))).
Variable product_title_text : string -> result string.
Variable series_mean : list Q -> Q.
Variable format_1f : Q -> string.

(** C2.  On the empty review list [generate_summary] returns exactly the
    fixed message, whatever the URL and the web are, and leaves the driver
    untouched: the title lookup and every later step are skipped.  The
    message holds none of the clauses of the narrative: not the opening,
    no lead-in of a themes or neutral clause, no closing sentence. *)
Theorem generate_summary_empty (url : string) (d : Driver) :
  generate_summary netloc product_title_text series_mean format_1f [] url d
  = (Ok "No reviews found for analysis.", d)
  /\ forallb
       (fun clause => negb (contains clause "No reviews found for analysis."))
       [ "Based on a detailed analysis of ";
         Narrative.positive_lead_in;
         Narrative.neutral_lead_in;
         Narrative.negative_lead_in;
         Narrative.strong_recommendation;
         Narrative.cautious_satisfaction;
         Narrative.mixed_feedback ]
     = true.
Proof.
  split.
  - unfold generate_summary. cbn [truthy negb]. reflexivity.
  - vm_compute. reflexivity.
Qed.

Lemma clean_url_invalid (url : string) :
  asin_match url = None -> exists e, clean_url netloc url = Raise e.
Proof.
  intro H. unfold clean_url. destruct (netloc url); cbn [rbind]; [|eauto].
  rewrite H. eauto.
Qed.

(** C3, as the code has it.  When the URL holds no product identifier the
    [ValueError] of [clean_url] is caught inside [fetch_reviews_selenium]:
    no page is requested, the review list is empty, and the analysis
    returns the fixed "no reviews" summary; for a non-empty URL the endpoint
    answers with that summary and status 200. *)
Theorem invalid_url_degrades (url : string) (num_pages : nat) (d : Driver) :
  asin_match url = None ->
  fetch_reviews_selenium polarity netloc review_elements url num_pages d
  = (Ok [], d)
  /\ scrape_amazon_reviews polarity netloc review_elements product_title_text series_mean format_1f url d
     = (Ok "No reviews found for analysis.", d)
  /\ (url <> "" ->
      analyze polarity netloc review_elements product_title_text series_mean format_1f (Some url) d
      = (Ok (JsonSummary "No reviews found for analysis." 200), d)).
Proof.
  intro H. destruct (clean_url_invalid url H) as [e He].
  assert (Hf : forall n, fetch_reviews_selenium polarity netloc review_elements url n d
                         = (Ok [], d)).
  { intro n. unfold fetch_reviews_selenium, try_except, bind, lift.
    rewrite He. reflexivity. }
  assert (Hs : scrape_amazon_reviews polarity netloc review_elements
                 product_title_text series_mean format_1f url d
               = (Ok "No reviews found for analysis.", d)).
  { unfold scrape_amazon_reviews. rewrite (bind_ok _ _ _ _ _ (Hf 500)).
    reflexivity. }
  repeat split; auto.
  intro Hne. destruct url as [|c url]; [congruence|].
  unfold analyze, try_except. rewrite (bind_ok _ _ _ _ _ Hs). reflexivity.
Qed.

End Composer.

Lemma invalid_url_degrades_witness :
  asin_match Sample.bad_url = None
  /\ analyze Sample.polarity Sample.netloc Sample.review_elements
       Sample.product_title_text Sample.series_mean Sample.format_1f (Some Sample.bad_url) []
     = (Ok (JsonSummary "No reviews found for analysis." 200), []).
Proof.
  split; [reflexivity|].
  apply (invalid_url_degrades Sample.polarity Sample.netloc
           Sample.review_elements Sample.product_title_text Sample.series_mean Sample.format_1f
           Sample.bad_url 500 []);
    [reflexivity|discriminate].
Defined.

(** C3 as stated fails: for a URL without identifier the endpoint does not
    answer with an error, it answers with a summary. *)
Lemma invalid_url_not_an_error :
  asin_match Sample.bad_url = None
  /\ ~ (exists msg status d',
          analyze Sample.polarity Sample.netloc Sample.review_elements
            Sample.product_title_text Sample.series_mean Sample.format_1f (Some Sample.bad_url) []
          = (Ok (JsonError msg status), d')).
Proof.
  split; [reflexivity|].
  intros (msg & status & d' & H). vm_compute in H. discriminate H.
Qed.

Section Narration.

Variable netloc : string -> result string.
Variable product_title_text : string -> result string.
Variable series_mean : list Q -> Q.
Variable format_1f : Q -> string.

Local Open Scope Z_scope.

(** C4.  On a non-empty review list the summary opens with the descriptor
    chosen by the first threshold met by the share of positive reviews in
    the whole list, [p] out of [n]: 80%, 70%, 60%; failing those, a share of
    negative reviews, [m] out of [n], of 60% gives the negative descriptor,
    and anything else is mixed. *)
Theorem descriptor_thresholds (reviews : list Review) (url : string)
    (d : Driver) :
  reviews <> [] ->
  let n := Z.of_nat (List.length reviews) in
  let p := Z.of_nat (List.length (filter (has_sentiment Positive) reviews)) in
  let m := Z.of_nat (List.length (filter (has_sentiment Negative) reviews)) in
  exists desc,
    generate_summary netloc product_title_text series_mean format_1f reviews url d
    = (Ok (Narrative.opening series_mean format_1f reviews
             (Narrative.title_of netloc product_title_text url) desc
           ++ Narrative.themes_clause Narrative.positive_lead_in
                (Narrative.positive_themes reviews)
           ++ Narrative.neutral_clause reviews
           ++ Narrative.themes_clause Narrative.negative_lead_in
                (Narrative.negative_themes reviews)
           ++ Narrative.closing series_mean reviews),
       Narrative.driver_after_title netloc url d)
    /\ (80 * n <= 100 * p -> desc = "overwhelmingly positive reviews")
    /\ (100 * p < 80 * n -> 70 * n <= 100 * p ->
        desc = "largely positive reviews")
    /\ (100 * p < 70 * n -> 60 * n <= 100 * p ->
        desc = "generally positive reviews")
    /\ (100 * p < 60 * n -> 60 * n <= 100 * m ->
        desc = "generally negative reviews")
    /\ (100 * p < 60 * n -> 100 * m < 60 * n -> desc = "mixed reviews").
Proof.
  intros Hne n p m. exists (Narrative.descriptor reviews).
  split; [now apply generate_summary_eq|].
  unfold Narrative.descriptor, Narrative.total_count, Narrative.count_of.
  fold n p m.
  destruct (Z.leb_spec (80 * n) (100 * p));
    destruct (Z.leb_spec (70 * n) (100 * p));
    destruct (Z.leb_spec (60 * n) (100 * p));
    destruct (Z.leb_spec (60 * n) (100 * m));
    repeat split; intros; try reflexivity; lia.
Qed.

(** C6.  On a non-empty review list the summary holds the neutral clause
    between the two themes clauses.  With a detailed neutral review (text
    longer than 200 characters) the clause quotes exactly the first 150
    characters of the longest such review, the earliest one among equally
    long ones, then an ellipsis; without one the clause is empty. *)
Theorem neutral_clause_spec (reviews : list Review) (url : string) (d : Driver) :
  reviews <> [] ->
  let neutral_reviews :=
    filter (has_sentiment Neutral)
      (filter (fun r => (200 <? length (text r))%nat) reviews) in
  exists clause,
    generate_summary netloc product_title_text series_mean format_1f reviews url d
    = (Ok (Narrative.opening series_mean format_1f reviews
             (Narrative.title_of netloc product_title_text url)
             (Narrative.descriptor reviews)
           ++ Narrative.themes_clause Narrative.positive_lead_in
                (Narrative.positive_themes reviews)
           ++ clause
           ++ Narrative.themes_clause Narrative.negative_lead_in
                (Narrative.negative_themes reviews)
           ++ Narrative.closing series_mean reviews),
       Narrative.driver_after_title netloc url d)
    /\ (neutral_reviews = [] -> clause = "")
    /\ (neutral_reviews <> [] ->
        exists before best after,
          neutral_reviews = (before ++ best :: after)%list
          /\ (forall r, In r before ->
                (length (text r) < length (text best))%nat)
          /\ (forall r, In r after ->
                (length (text r) <= length (text best))%nat)
          /\ length (take 150 (text best)) = 150%nat
          /\ clause = "A balanced perspective from users notes that "
                      ++ take 150 (text best) ++ "... ").
Proof.
  intros Hne neutral_reviews. exists (Narrative.neutral_clause reviews).
  split; [now apply generate_summary_eq|].
  unfold Narrative.neutral_clause.
  change (Narrative.detailed Neutral reviews) with neutral_reviews.
  destruct neutral_reviews as [|r rs] eqn:E; split; try congruence.
  intros _.
  destruct (max_by_spec (fun x => length (text x)) (r :: rs) _ (max_by_cons _ r rs))
    as (before & after & Heq & Hb & Ha).
  set (best := Narrative.first_longest (fun x => length (text x)) r rs) in *.
  exists before, best, after. repeat split; auto.
  apply length_take.
  assert (Hin : In best (r :: rs)) by (rewrite Heq; apply in_elt).
  rewrite <- E in Hin. unfold neutral_reviews in Hin.
  apply filter_In in Hin as [Hin _]. apply filter_In in Hin as [_ Hin].
  apply Nat.ltb_lt in Hin. lia.
Qed.

(** C7.  On a non-empty review list the summary ends with the closing
    chosen by the first pair of thresholds met, the mean rating being the
    mean the code computes from the rating column: mean rating at least 4.0
    with at least 70% positive reviews gives the strong recommendation,
    which names the first two keys of the positive themes (fewer when there
    are fewer); else mean rating at least 3.5 with at least 60% positive
    gives the cautious sentence; else the mixed-feedback sentence. *)
Theorem closing_thresholds (reviews : list Review) (url : string) (d : Driver) :
  reviews <> [] ->
  let n := Z.of_nat (List.length reviews) in
  let p := Z.of_nat (List.length (filter (has_sentiment Positive) reviews)) in
  let mean_rating := Narrative.mean_rating series_mean reviews in
  let strong := (4 <= mean_rating)%Q /\ 70 * n <= 100 * p in
  let cautious := (35 # 10 <= mean_rating)%Q /\ 60 * n <= 100 * p in
  exists closing,
    generate_summary netloc product_title_text series_mean format_1f reviews url d
    = (Ok (Narrative.opening series_mean format_1f reviews
             (Narrative.title_of netloc product_title_text url)
             (Narrative.descriptor reviews)
           ++ Narrative.themes_clause Narrative.positive_lead_in
                (Narrative.positive_themes reviews)
           ++ Narrative.neutral_clause reviews
           ++ Narrative.themes_clause Narrative.negative_lead_in
                (Narrative.negative_themes reviews)
           ++ closing),
       Narrative.driver_after_title netloc url d)
    /\ (strong ->
        closing
        = Narrative.strong_recommendation
          ++ join " and " (firstn 2 (keys (Narrative.positive_themes reviews)))
          ++ ".")
    /\ (~ strong -> cautious -> closing = Narrative.cautious_satisfaction)
    /\ (~ strong -> ~ cautious -> closing = Narrative.mixed_feedback)
    /\ (List.length (firstn 2 (keys (Narrative.positive_themes reviews))) <= 2)%nat.
Proof.
  intros Hne n p mean_rating strong cautious.
  exists (Narrative.closing series_mean reviews).
  split; [now apply generate_summary_eq|].
  unfold Narrative.closing, Narrative.total_count, Narrative.count_of.
  fold n p mean_rating.
  assert (Hs : Qle_bool 4 mean_rating && (70 * n <=? 100 * p) = true <-> strong).
  { unfold strong. now rewrite andb_true_iff, Qle_bool_iff, Z.leb_le. }
  assert (Hc : Qle_bool (35 # 10) mean_rating && (60 * n <=? 100 * p) = true
               <-> cautious).
  { unfold cautious. now rewrite andb_true_iff, Qle_bool_iff, Z.leb_le. }
  destruct (Qle_bool 4 mean_rating && (70 * n <=? 100 * p));
    destruct (Qle_bool (35 # 10) mean_rating && (60 * n <=? 100 * p));
    repeat split; intros; try reflexivity;
    try (exfalso; intuition congruence);
    apply firstn_le_length.
Qed.

(** C8.  On every non-empty review list [generate_summary] returns a
    string: none of its steps raises, whatever the title lookup does. *)
Theorem generate_summary_total (reviews : list Review) (url : string)
    (d : Driver) :
  reviews <> [] ->
  exists summary d',
    generate_summary netloc product_title_text series_mean format_1f reviews url d = (Ok summary, d').
Proof.
  intro Hne. do 2 eexists. now apply generate_summary_eq.
Qed.

End Narration.

Section Aggregation.

Lemma exact_mean_perm (reviews reviews' : list Review) :
  Permutation reviews reviews' ->
  Narrative.exact_mean reviews = Narrative.exact_mean reviews'.
Proof.
  intro H. unfold Narrative.exact_mean, Narrative.rating_sum, Narrative.total_count.
  now rewrite (rating_sum_perm _ _ H), (Permutation_length H).
Qed.

(** C9, as the code has it.  A permutation of the review list leaves the
    count and the percentages of positive and of negative reviews
    unchanged.  The ratings averaged are the same ratings in another order,
    so their exact arithmetic mean is unchanged too; the mean rating of the
    code is the float64 mean of that column taken in its order, and is not
    claimed to be the same. *)
Theorem aggregate_permutation (reviews reviews' : list Review) :
  Permutation reviews reviews' ->
  List.length reviews = List.length reviews'
  /\ sentiment_percent Positive reviews (List.length reviews)
     = sentiment_percent Positive reviews' (List.length reviews')
  /\ sentiment_percent Negative reviews (List.length reviews)
     = sentiment_percent Negative reviews' (List.length reviews')
  /\ Permutation (map rating reviews) (map rating reviews')
  /\ Narrative.exact_mean reviews = Narrative.exact_mean reviews'.
Proof.
  intro H. pose proof (Permutation_length H) as Hlen.
  split; [assumption|]. split; [|split; [|split]].
  - unfold sentiment_percent. now rewrite (count_perm _ _ _ H), Hlen.
  - unfold sentiment_percent. now rewrite (count_perm _ _ _ H), Hlen.
  - now apply Permutation_map.
  - now apply exact_mean_perm.
Qed.

Lemma aggregate_permutation_witness :
  Permutation Sample.three Sample.three'
  /\ sentiment_percent Positive Sample.three 3
     = sentiment_percent Positive Sample.three' 3
  /\ Narrative.exact_mean Sample.three = Narrative.exact_mean Sample.three'.
Proof.
  assert (H : Permutation Sample.three Sample.three').
  { apply (Permutation_cons_app [_; _] []). apply Permutation_refl. }
  split; [exact H|].
  destruct (aggregate_permutation _ _ H) as (_ & Hp & _ & _ & Hm).
  split; [exact Hp|exact Hm].
Defined.

(** C9 as stated fails for the mean rating: the float64 mean of 3.1, 4.1
    and 4.8 is 4.0 or 3.9999999999999996 according to the order of the
    column, whether the sum runs from left to right or starts from the
    first value. *)
Lemma mean_rating_depends_on_order :
  Permutation Sample.three Sample.three'
  /\ (exists m m',
        rating_mean Float64.mean_left Sample.three = Ok m
        /\ rating_mean Float64.mean_left Sample.three' = Ok m'
        /\ ~ (m == m')%Q)
  /\ (exists m m',
        rating_mean Float64.mean_first_rest Sample.three = Ok m
        /\ rating_mean Float64.mean_first_rest Sample.three' = Ok m'
        /\ ~ (m == m')%Q).
Proof.
  split; [|split].
  - apply (Permutation_cons_app [_; _] []). apply Permutation_refl.
  - do 2 eexists. split; [vm_compute; reflexivity|].
    split; [vm_compute; reflexivity|]. unfold Qeq. vm_compute. discriminate.
  - do 2 eexists. split; [vm_compute; reflexivity|].
    split; [vm_compute; reflexivity|]. unfold Qeq. vm_compute. discriminate.
Qed.

End Aggregation.

Section ThemeExtraction.

Lemma common_aspects_nodup : NoDup (map fst common_aspects).
Proof.
  repeat (constructor; [simpl; intuition discriminate|]). constructor.
Qed.

Lemma common_keywords_ok (aspect : string) (keywords : list string) :
  In (aspect, keywords) common_aspects -> forallb keyword_ok keywords = true.
Proof.
  assert (H : forallb (fun e => forallb keyword_ok (snd e)) common_aspects = true)
    by reflexivity.
  intro Hin. rewrite forallb_forall in H. exact (H _ Hin).
Qed.

(** A text that holds a keyword has a relevant segment. *)
Lemma first_relevant_exists (keywords : list string) (text : string) :
  forallb keyword_ok keywords = true ->
  any_keyword_in keywords text = true ->
  exists s, Narrative.first_relevant keywords text = Some s.
Proof.
  intros Hok Hany. unfold any_keyword_in in Hany.
  apply existsb_exists in Hany as (k & Hk & Hc).
  rewrite forallb_forall in Hok. specialize (Hok k Hk).
  apply andb_true_iff in Hok as [Hdot Hns].
  destruct (contains_split "." k text Hdot Hc) as (seg & Hin & Hseg).
  unfold Narrative.first_relevant.
  destruct (find _ (split "." text)) as [s|] eqn:E; [eauto|].
  pose proof (find_none _ _ E seg Hin) as Hf. cbv beta in Hf.
  rewrite nonempty_strip, (contains_has_nonspace k seg Hseg Hns), andb_true_r in Hf.
  assert (Ht : any_keyword_in keywords seg = true)
    by (apply existsb_exists; eauto).
  congruence.
Qed.

(** C5.  For each of the eight aspects the example list built by
    [extract_themes] holds, review by review, what the review contributes:
    nothing when its lower-cased text holds no keyword of the aspect;
    otherwise the first segment of the lower-cased text, split at periods,
    that holds a keyword and is not blank, stored trimmed.  One review can
    add to the lists of several aspects. *)
Theorem extract_themes_first_segment (review_list : list Review)
    (aspect : string) (keywords : list string) :
  In (aspect, keywords) common_aspects ->
  let relevant s := any_keyword_in keywords s = true /\ strip s <> "" in
  themes_get (extract_themes review_list) aspect
  = flat_map (Narrative.contribution keywords) review_list
  /\ (forall r, any_keyword_in keywords (lower (text r)) = false ->
        Narrative.contribution keywords r = [])
  /\ (forall r, any_keyword_in keywords (lower (text r)) = true ->
        exists before s after,
          split "." (lower (text r)) = (before ++ s :: after)%list
          /\ relevant s
          /\ (forall x, In x before -> ~ relevant x)
          /\ Narrative.contribution keywords r = [strip s])
  /\ (exists r,
        themes_get (extract_themes [r]) "quality" <> []
        /\ themes_get (extract_themes [r]) "value" <> []).
Proof.
  intros Hin relevant. split; [|split; [|split]].
  - apply extract_themes_from_get; [apply common_aspects_nodup|assumption].
  - intros r H. unfold Narrative.contribution, Narrative.examples_of.
    now rewrite H.
  - intros r H. unfold Narrative.contribution, Narrative.examples_of.
    rewrite H.
    destruct (first_relevant_exists keywords _ (common_keywords_ok _ _ Hin) H)
      as [s Hs].
    rewrite Hs. unfold Narrative.first_relevant in Hs.
    destruct (find_first _ _ _ Hs) as (before & after & Heq & Hrel & Hbefore).
    exists before, s, after. apply andb_true_iff in Hrel as [H1 H2].
    repeat split; auto.
    + now apply nonempty_true.
    + intros x Hx [Hx1 Hx2]. specialize (Hbefore x Hx). cbv beta in Hbefore.
      apply nonempty_true in Hx2. rewrite Hx1, Hx2 in Hbefore. discriminate.
  - exists Sample.good. split; vm_compute; discriminate.
Qed.

Lemma extract_themes_first_segment_witness :
  In ("value", ["price"; "value"; "worth"; "cost"; "expensive"; "cheap"])
     common_aspects
  /\ themes_get (extract_themes [Sample.good; Sample.bad]) "value"
     = flat_map
         (Narrative.contribution
            ["price"; "value"; "worth"; "cost"; "expensive"; "cheap"])
         [Sample.good; Sample.bad].
Proof.
  assert (H : In ("value", ["price"; "value"; "worth"; "cost"; "expensive"; "cheap"])
                 common_aspects) by (right; left; reflexivity).
  split; [exact H|].
  apply (extract_themes_first_segment [Sample.good; Sample.bad] _ _ H).
Defined.

End ThemeExtraction.

Section ThemeInvariant.

Lemma longest_in (c : string) (cs : list string) :
  In (Narrative.longest (c :: cs)) (c :: cs).
Proof.
  destruct (max_by_spec length (c :: cs) _ (max_by_cons length c cs))
    as (l1 & l2 & Heq & _).
  unfold Narrative.longest. rewrite Heq at 1. apply in_elt.
Qed.

(** C10.  In the themes built by [extract_themes] every aspect present has
    at least one example and no example is the empty string.  Hence a
    themes block that writes its lead-in writes at least one item
    "the aspect (example)" after it, for the first aspect present, and
    closes the sentence. *)
Theorem themes_never_empty (review_list : list Review) :
  (forall aspect comments,
     In (aspect, comments) (extract_themes review_list) ->
     comments <> [] /\ forall s, In s comments -> s <> "")
  /\ (forall lead_in summary,
        extract_themes review_list <> [] ->
        exists aspect comments rest,
          extract_themes review_list = (aspect, comments) :: rest
          /\ In (Narrative.longest comments) comments
          /\ themes_block lead_in (extract_themes review_list) summary
             = Ok (summary ++ lead_in
                   ++ Narrative.enumerate
                        (("the " ++ aspect ++ " ("
                          ++ Narrative.longest comments ++ ")")
                         :: map Narrative.item rest)
                   ++ ". ")).
Proof.
  pose proof (extract_themes_ok review_list) as Hok. split.
  - intros aspect comments Hin.
    unfold themes_ok in Hok. rewrite Forall_forall in Hok.
    destruct (Hok _ Hin) as [Hne Hall]. split; [assumption|].
    now rewrite Forall_forall in Hall.
  - intros lead_in summary Hne.
    rewrite (themes_block_ok lead_in _ summary Hok).
    destruct (extract_themes review_list) as [|[aspect comments] rest];
      [congruence|].
    exists aspect, comments, rest. split; [reflexivity|]. split.
    + inversion Hok as [|? ? [Hc _] _]; subst. simpl in Hc.
      destruct comments as [|c cs]; [congruence|]. apply longest_in.
    + reflexivity.
Qed.

Lemma themes_never_empty_witness :
  In ("quality", ["this is great quality"]) (extract_themes [Sample.good])
  /\ ["this is great quality"] <> []
  /\ exists aspect comments rest,
       extract_themes [Sample.good] = (aspect, comments) :: rest
       /\ In (Narrative.longest comments) comments.
Proof.
  assert (H : In ("quality", ["this is great quality"])
                 (extract_themes [Sample.good])) by (left; reflexivity).
  split; [exact H|]. split.
  - apply (proj1 (themes_never_empty [Sample.good]) _ _ H).
  - destruct (proj2 (themes_never_empty [Sample.good]) "" "")
      as (aspect & comments & rest & Heq & Hin & _).
    + discriminate.
    + exists aspect, comments, rest. split; assumption.
Defined.

End ThemeInvariant.

Section NarrationWitnesses.

Lemma descriptor_thresholds_witness :
  Sample.reviews <> []
  /\ exists d',
       generate_summary Sample.netloc Sample.product_title_text Sample.series_mean Sample.format_1f
         Sample.reviews Sample.product_url []
       = (Ok (Narrative.opening Sample.series_mean Sample.format_1f Sample.reviews "Widget" "mixed reviews"
              ++ Narrative.themes_clause Narrative.positive_lead_in
                   (Narrative.positive_themes Sample.reviews)
              ++ Narrative.neutral_clause Sample.reviews
              ++ Narrative.themes_clause Narrative.negative_lead_in
                   (Narrative.negative_themes Sample.reviews)
              ++ Narrative.closing Sample.series_mean Sample.reviews), d').
Proof.
  assert (Hne : Sample.reviews <> []) by discriminate.
  split; [exact Hne|].
  destruct (descriptor_thresholds Sample.netloc Sample.product_title_text Sample.series_mean Sample.format_1f
              Sample.reviews Sample.product_url [] Hne)
    as (desc & Heq & _ & _ & _ & _ & Hmixed).
  rewrite Hmixed in Heq by (vm_compute; reflexivity).
  eexists. exact Heq.
Defined.

Lemma neutral_clause_spec_witness :
  Sample.reviews <> []
  /\ exists clause d',
       generate_summary Sample.netloc Sample.product_title_text Sample.series_mean Sample.format_1f
         Sample.reviews Sample.product_url []
       = (Ok (Narrative.opening Sample.series_mean Sample.format_1f Sample.reviews
                (Narrative.title_of Sample.netloc Sample.product_title_text
                   Sample.product_url)
                (Narrative.descriptor Sample.reviews)
              ++ Narrative.themes_clause Narrative.positive_lead_in
                   (Narrative.positive_themes Sample.reviews)
              ++ clause
              ++ Narrative.themes_clause Narrative.negative_lead_in
                   (Narrative.negative_themes Sample.reviews)
              ++ Narrative.closing Sample.series_mean Sample.reviews), d')
       /\ clause <> "".
Proof.
  assert (Hne : Sample.reviews <> []) by discriminate.
  split; [exact Hne|].
  destruct (neutral_clause_spec Sample.netloc Sample.product_title_text Sample.series_mean Sample.format_1f
              Sample.reviews Sample.product_url [] Hne)
    as (clause & Heq & _ & Hsome).
  destruct Hsome as (before & best & after & _ & _ & _ & _ & Hclause);
    [discriminate|].
  exists clause. eexists. split; [exact Heq|].
  rewrite Hclause. discriminate.
Defined.

Lemma closing_thresholds_witness :
  Sample.reviews <> []
  /\ exists closing d',
       generate_summary Sample.netloc Sample.product_title_text Sample.series_mean Sample.format_1f
         Sample.reviews Sample.product_url []
       = (Ok (Narrative.opening Sample.series_mean Sample.format_1f Sample.reviews
                (Narrative.title_of Sample.netloc Sample.product_title_text
                   Sample.product_url)
                (Narrative.descriptor Sample.reviews)
              ++ Narrative.themes_clause Narrative.positive_lead_in
                   (Narrative.positive_themes Sample.reviews)
              ++ Narrative.neutral_clause Sample.reviews
              ++ Narrative.themes_clause Narrative.negative_lead_in
                   (Narrative.negative_themes Sample.reviews)
              ++ closing), d')
       /\ closing = Narrative.mixed_feedback.
Proof.
  assert (Hne : Sample.reviews <> []) by discriminate.
  split; [exact Hne|].
  destruct (closing_thresholds Sample.netloc Sample.product_title_text Sample.series_mean Sample.format_1f
              Sample.reviews Sample.product_url [] Hne)
    as (closing & Heq & _ & _ & Hmixed & _).
  exists closing. eexists. split; [exact Heq|].
  apply Hmixed; intros [_ H]; vm_compute in H; apply H; reflexivity.
Defined.

Lemma generate_summary_total_witness :
  Sample.reviews <> []
  /\ exists summary d',
       generate_summary Sample.netloc Sample.product_title_text Sample.series_mean Sample.format_1f
         Sample.reviews Sample.product_url []
       = (Ok summary, d').
Proof.
  assert (Hne : Sample.reviews <> []) by discriminate.
  split; [exact Hne|].
  apply (generate_summary_total Sample.netloc Sample.product_title_text Sample.series_mean Sample.format_1f
           Sample.reviews Sample.product_url [] Hne).
Defined.

End NarrationWitnesses.

(** ** The model on concrete inputs *)

Section Examples.

Example asin_match_dp :
  asin_match "https://www.amazon.com/dp/B000000001/ref" = Some "B000000001".
Proof. reflexivity. Qed.

Example asin_match_product :
  asin_match "https://www.amazon.in/gp/product/B00000000A" = Some "B00000000A".
Proof. reflexivity. Qed.

Example asin_match_lower_case :
  asin_match "https://www.amazon.com/dp/b000000001" = None.
Proof. reflexivity. Qed.

Example split_keeps_empty_segments :
  split "." "a.b c. .d." = ["a"; "b c"; " "; "d"; ""].
Proof. reflexivity. Qed.

Example double_mean_of_twenty :
  Sample.format_1f (Sample.series_mean (map rating Sample.twenty)) = "4.3"
  /\ Sample.format_1f (Narrative.exact_mean Sample.twenty) = "4.4".
Proof. split; vm_compute; reflexivity. Qed.

Example extract_themes_two_reviews :
  extract_themes
    [ mkReview "Great BUILD quality. Fast. Worth the price" 5 Positive;
      mkReview "So fast.  The build is solid " 5 Positive ]
  = [ ("quality", ["great build quality"; "the build is solid"]);
      ("value", ["worth the price"]);
      ("performance", ["fast"; "so fast"]) ].
Proof. reflexivity. Qed.

Example themes_block_three_items :
  themes_block "Praised: "
    [ ("quality", ["great build quality"; "the build is solid"]);
      ("value", ["worth the price"]);
      ("performance", ["fast"; "so fast"]) ]
    "Opening. "
  = Ok "Opening. Praised: the quality (great build quality), the value (worth the price), and the performance (so fast). ".
Proof. reflexivity. Qed.

Example parse_reviews_skips_failures :
  parse_reviews Sample.polarity
    [Ok (" this is great. ", 5%Q); Raise IndexError; Ok ("poor", 1%Q)] []
  = [ mkReview "this is great." 5 Positive; mkReview "poor" 1 Negative ].
Proof. reflexivity. Qed.

Example generate_summary_short_review :
  generate_summary Sample.netloc Sample.product_title_text Sample.series_mean Sample.format_1f
    [Sample.short] Sample.bad_url []
  = (Ok "Based on a detailed analysis of 1 customer reviews, the Product has received mixed reviews with an average rating of 4.0 out of 5 stars. Given the mixed feedback, potential buyers may want to explore other options or consider specific use cases before deciding.",
     []).
Proof. reflexivity. Qed.

Example generate_summary_all_positive :
  generate_summary Sample.netloc Sample.product_title_text Sample.series_mean Sample.format_1f
    [ Sample.short; mkReview "ok" 5 Positive; mkReview "ok" 5 Positive;
      mkReview "ok" 5 Positive; mkReview "ok" 5 Positive ]
    Sample.product_url []
  = (Ok "Based on a detailed analysis of 5 customer reviews, the Widget has received overwhelmingly positive reviews with an average rating of 4.8 out of 5 stars. Given the substantial positive feedback and high average rating, this product comes highly recommended by the majority of users, particularly for those valuing .",
     [Sample.product_url]).
Proof. reflexivity. Qed.

Example generate_summary_prints_the_double :
  fst (generate_summary Sample.netloc Sample.product_title_text
         Sample.series_mean Sample.format_1f Sample.twenty Sample.bad_url [])
  = Ok "Based on a detailed analysis of 20 customer reviews, the Product has received overwhelmingly positive reviews with an average rating of 4.3 out of 5 stars. Given the substantial positive feedback and high average rating, this product comes highly recommended by the majority of users, particularly for those valuing .".
Proof. vm_compute. reflexivity. Qed.

Example generate_summary_mean_just_below :
  fst (generate_summary Sample.netloc Sample.product_title_text
         Sample.series_mean Sample.format_1f Sample.four Sample.bad_url [])
  = Ok "Based on a detailed analysis of 4 customer reviews, the Product has received overwhelmingly positive reviews with an average rating of 3.5 out of 5 stars. Given the mixed feedback, potential buyers may want to explore other options or consider specific use cases before deciding.".
Proof. vm_compute. reflexivity. Qed.

Example percent_thresholds_in_doubles :
  forallb Float64.agrees_everywhere (seq 1 30) = true
  /\ forallb Float64.agrees_at_thresholds (seq 1 1000) = true.
Proof. split; vm_compute; reflexivity. Qed.

Example analyze_requires_url :
  analyze Sample.polarity Sample.netloc Sample.review_elements
    Sample.product_title_text Sample.series_mean Sample.format_1f (Some "") []
  = (Ok (JsonError "URL is required." 400), []).
Proof. reflexivity. Qed.

End Examples.

(** ** Further properties: product identifiers *)

Section Identifiers.

Lemma substring_all (s : string) : substring 0 (length s) s = s.
Proof. induction s as [|c s IH]; simpl; [reflexivity|now rewrite IH]. Qed.

Lemma prefix_take (n : nat) (s : string) : prefix (take n s) s = true.
Proof.
  unfold take. revert s; induction n as [|n IH]; intro s.
  - now destruct s.
  - destruct s as [|c s]; simpl; [reflexivity|].
    destruct (ascii_dec c c); [apply IH|contradiction].
Qed.

Lemma prefix_drop (m s : string) :
  prefix m s = true -> s = m ++ drop (length m) s.
Proof.
  revert s; induction m as [|a m IH]; intros s H.
  - unfold drop. simpl. now rewrite Nat.sub_0_r, substring_all.
  - destruct s as [|c s]; simpl in H; [discriminate|].
    destruct (ascii_dec a c) as [->|]; [|discriminate].
    simpl. f_equal. exact (IH s H).
Qed.

Lemma prefix_app (m g t : string) :
  prefix g t = true -> prefix (m ++ g) (m ++ t) = true.
Proof.
  intro H. induction m as [|a m IH]; simpl; [assumption|].
  destruct (ascii_dec a a); [assumption|contradiction].
Qed.

Lemma prefix_app_l (m t : string) : prefix m (m ++ t) = true.
Proof.
  induction m as [|a m IH]; simpl; [now destruct t|].
  destruct (ascii_dec a a); [assumption|contradiction].
Qed.

Lemma take_app (a b : string) : take (length a) (a ++ b) = a.
Proof.
  unfold take. induction a as [|c a IH]; simpl; [now destruct b|now rewrite IH].
Qed.

Lemma drop_app (a b : string) : drop (length a) (a ++ b) = b.
Proof.
  unfold drop. induction a as [|c a IH]; simpl.
  - now rewrite Nat.sub_0_r, substring_all.
  - exact IH.
Qed.

Lemma re_search_eq (marker s : string) :
  re_search marker s
  = match (if prefix marker s then match_asin (drop (length marker) s) else None) with
    | Some g => Some g
    | None =>
        match s with
        | EmptyString => None
        | String _ s' => re_search marker s'
        end
    end.
Proof. destruct s; reflexivity. Qed.

Lemma match_asin_sound (s g : string) :
  match_asin s = Some g -> Fetch.is_asin g /\ prefix g s = true.
Proof.
  unfold match_asin, Fetch.is_asin. intro H.
  destruct (_ && _) eqn:E; [|discriminate]. injection H as <-.
  apply andb_true_iff in E as [E1 E2]. apply Nat.eqb_eq in E1.
  repeat split; auto. apply prefix_take.
Qed.

Lemma match_asin_complete (asin rest : string) :
  Fetch.is_asin asin -> match_asin (asin ++ rest) = Some asin.
Proof.
  intros [Hlen Hall].
  assert (H : take 10 (asin ++ rest) = asin)
    by (rewrite <- Hlen; apply take_app).
  unfold match_asin. cbv zeta. rewrite H, Hlen, Hall. reflexivity.
Qed.

Lemma re_search_sound (marker s g : string) :
  re_search marker s = Some g ->
  Fetch.is_asin g /\ contains (marker ++ g) s = true.
Proof.
  induction s as [|c s IH]; rewrite re_search_eq; intro H.
  - destruct (prefix marker "") eqn:Hp; [|discriminate].
    destruct (match_asin _) as [g'|] eqn:Hm; [|discriminate].
    injection H as ->. apply match_asin_sound in Hm as [Hg Hpre].
    split; [assumption|]. apply prefix_contains.
    rewrite (prefix_drop _ _ Hp) at 1. now apply prefix_app.
  - destruct (if prefix marker (String c s) then _ else None) as [g'|] eqn:Hm.
    + injection H as ->.
      destruct (prefix marker (String c s)) eqn:Hp; [|discriminate].
      apply match_asin_sound in Hm as [Hg Hpre].
      split; [assumption|]. apply prefix_contains.
      rewrite (prefix_drop _ _ Hp) at 1. now apply prefix_app.
    + destruct (IH H) as [Hg Hc]. split; [assumption|].
      now apply contains_cons.
Qed.

Lemma re_search_complete (marker pre asin post : string) :
  Fetch.is_asin asin ->
  exists g, re_search marker (pre ++ marker ++ asin ++ post) = Some g.
Proof.
  intro Ha. induction pre as [|c pre IH]; rewrite re_search_eq.
  - cbn [append]. rewrite prefix_app_l, drop_app, match_asin_complete by assumption.
    eauto.
  - cbn [append]. destruct (if prefix marker _ then _ else None); eauto.
Qed.

Variable netloc : string -> result string.

(** X1.  The identifier [clean_url] returns is well formed and stands in the URL
    right after [/dp/] or [/product/]; the domain is the one [urlparse]
    gives. *)
Theorem clean_url_sound (url domain asin : string) :
  clean_url netloc url = Ok (domain, asin) ->
  netloc url = Ok domain
  /\ Fetch.is_asin asin
  /\ (contains ("/dp/" ++ asin) url = true
      \/ contains ("/product/" ++ asin) url = true).
Proof.
  unfold clean_url, asin_match. intro H.
  destruct (netloc url) as [dom|]; cbn [rbind] in H; [|discriminate].
  destruct (re_search "/dp/" url) as [g|] eqn:E1.
  - injection H as -> ->. destruct (re_search_sound _ _ _ E1). auto.
  - destruct (re_search "/product/" url) as [g|] eqn:E2; [|discriminate].
    injection H as -> ->. destruct (re_search_sound _ _ _ E2). auto.
Qed.

(** X2.  Every URL that holds a well-formed identifier after [/dp/] or
    [/product/] is accepted, wherever the identifier stands. *)
Theorem clean_url_complete (marker pre asin post domain : string) :
  marker = "/dp/" \/ marker = "/product/" ->
  Fetch.is_asin asin ->
  netloc (pre ++ marker ++ asin ++ post) = Ok domain ->
  exists found,
    clean_url netloc (pre ++ marker ++ asin ++ post) = Ok (domain, found)
    /\ Fetch.is_asin found.
Proof.
  intros Hm Ha Hn. unfold clean_url. rewrite Hn. cbn [rbind].
  assert (H : exists g, asin_match (pre ++ marker ++ asin ++ post) = Some g).
  { unfold asin_match.
    destruct (re_search "/dp/" (pre ++ marker ++ asin ++ post)) as [g|] eqn:E;
      [eauto|].
    destruct Hm as [->| ->].
    - destruct (re_search_complete "/dp/" pre asin post Ha) as [g Hg]. congruence.
    - apply re_search_complete. assumption. }
  destruct H as [g Hg]. rewrite Hg. exists g. split; [reflexivity|].
  unfold asin_match in Hg.
  destruct (re_search "/dp/" _) as [g'|] eqn:E.
  - injection Hg as ->. now destruct (re_search_sound _ _ _ E).
  - now destruct (re_search_sound _ _ _ Hg).
Qed.

End Identifiers.

Lemma clean_url_sound_witness :
  clean_url Sample.netloc Sample.product_url = Ok ("www.amazon.com", "B000000001")
  /\ Fetch.is_asin "B000000001".
Proof.
  assert (H : clean_url Sample.netloc Sample.product_url
              = Ok ("www.amazon.com", "B000000001")) by reflexivity.
  split; [exact H|].
  apply (clean_url_sound Sample.netloc _ _ _ H).
Defined.

Lemma clean_url_complete_witness :
  Fetch.is_asin "B00000000A"
  /\ exists found,
       clean_url Sample.netloc
         ("https://www.amazon.in/gp" ++ "/product/" ++ "B00000000A" ++ "?th=1")
       = Ok ("www.amazon.com", found)
       /\ Fetch.is_asin found.
Proof.
  assert (Ha : Fetch.is_asin "B00000000A") by (split; reflexivity).
  split; [exact Ha|].
  apply (clean_url_complete Sample.netloc "/product/" "https://www.amazon.in/gp"
           "B00000000A" "?th=1" "www.amazon.com");
    [right; reflexivity|exact Ha|reflexivity].
Defined.

(** ** Further properties: fetching the reviews *)

Section Fetching.

Variable polarity : string -> Q.
Variable netloc : string -> result string.
Variable review_elements : string -> result (list (result (string * Q))).
Variable product_title_text : string -> result string.
Variable series_mean : list Q -> Q.
Variable format_1f : Q -> string.

Lemma rstrip_idempotent (s : string) : rstrip (rstrip s) = rstrip s.
Proof.
  induction s as [|c s IH]; [reflexivity|].
  cbn [rstrip]. destruct (rstrip s) as [|c' r] eqn:E.
  - destruct (is_space c) eqn:Ec; [reflexivity|]. cbn. now rewrite Ec.
  - change (rstrip (String c (String c' r)))
      with (match rstrip (String c' r) with
            | EmptyString => if is_space c then EmptyString else String c EmptyString
            | String a b => String c (String a b)
            end).
    now rewrite IH.
Qed.

Lemma lstrip_rstrip_lstrip (s : string) :
  lstrip (rstrip (lstrip s)) = rstrip (lstrip s).
Proof.
  induction s as [|c s IH]; [reflexivity|].
  cbn [lstrip]. destruct (is_space c) eqn:Ec; [exact IH|].
  cbn [rstrip]. destruct (rstrip s); rewrite ?Ec; cbn [lstrip];
    now rewrite Ec.
Qed.

Lemma strip_idempotent (s : string) : strip (strip s) = strip s.
Proof.
  unfold strip. now rewrite lstrip_rstrip_lstrip, rstrip_idempotent.
Qed.

Lemma parse_reviews_app (elements : list (result (string * Q)))
    (reviews : list Review) :
  parse_reviews polarity elements reviews
  = (reviews ++ parse_reviews polarity elements [])%list.
Proof.
  unfold parse_reviews. revert reviews.
  induction elements as [|e elements IH]; intro reviews; cbn [fold_left].
  - now rewrite app_nil_r.
  - destruct e as [[body rating]|]; [|apply IH].
    rewrite IH. rewrite (IH ([] ++ _)%list). now rewrite app_assoc.
Qed.

(** X3.  The loop over the review elements of a page keeps the reviews it is
    given and adds one review for each element that is read without
    raising; elements that raise are skipped. *)
Theorem parse_reviews_appends (elements : list (result (string * Q)))
    (reviews : list Review) :
  exists added,
    parse_reviews polarity elements reviews = (reviews ++ added)%list
    /\ List.length added = Fetch.readable elements.
Proof.
  exists (parse_reviews polarity elements []).
  split; [apply parse_reviews_app|].
  unfold Fetch.readable.
  induction elements as [|e elements IH]; [reflexivity|].
  destruct e as [[body rating]|]; cbn [filter List.length].
  - unfold parse_reviews in *. cbn [fold_left].
    fold (parse_reviews polarity elements
            ([] ++ [mkReview (strip body) rating
                      (analyze_sentiment polarity (strip body))])%list).
    rewrite parse_reviews_app, length_app. unfold parse_reviews.
    rewrite IH. reflexivity.
  - exact IH.
Qed.

Lemma parse_reviews_forall (P : Review -> Prop)
    (elements : list (result (string * Q))) (reviews : list Review) :
  (forall body rating,
     P (mkReview (strip body) rating (analyze_sentiment polarity (strip body)))) ->
  Forall P reviews -> Forall P (parse_reviews polarity elements reviews).
Proof.
  intro HP. unfold parse_reviews. revert reviews.
  induction elements as [|e elements IH]; intros reviews H; cbn [fold_left];
    [assumption|].
  apply IH. destruct e as [[body rating]|]; [|assumption].
  apply Forall_app. split; [assumption|]. constructor; [apply HP|constructor].
Qed.

Lemma fetch_page_eq (review_url : string) (page : nat) (reviews : list Review)
    (d : Driver) :
  fetch_page polarity review_elements review_url page reviews d
  = match review_elements (Fetch.page_url review_url page) with
    | Ok elements =>
        (Ok (parse_reviews polarity elements reviews),
         (d ++ [Fetch.page_url review_url page])%list)
    | Raise e => (Raise e, (d ++ [Fetch.page_url review_url page])%list)
    end.
Proof.
  unfold fetch_page, bind, driver_get, lift, ret, Fetch.page_url.
  destruct (review_elements _); reflexivity.
Qed.

Lemma fetch_pages_eq (review_url : string) (pages : list nat)
    (reviews : list Review) (d : Driver) :
  fetch_pages polarity review_elements review_url pages reviews d
  = (Ok (Fetch.collect polarity review_elements review_url
           (Fetch.good_pages review_elements review_url pages) reviews),
     (d ++ map (Fetch.page_url review_url)
             (firstn (S (List.length
                          (Fetch.good_pages review_elements review_url pages)))
                pages))%list).
Proof.
  revert reviews d. induction pages as [|page rest IH]; intros reviews d.
  - cbn. now rewrite app_nil_r.
  - cbn [fetch_pages Fetch.good_pages]. rewrite fetch_page_eq.
    unfold Fetch.page_ok.
    destruct (review_elements (Fetch.page_url review_url page)) as [els|e] eqn:E.
    + rewrite IH. cbn [List.length firstn map]. unfold Fetch.collect at 2.
      cbn [fold_left]. rewrite E. rewrite <- app_assoc. reflexivity.
    + reflexivity.
Qed.

Lemma firstn_seq_min (k start len : nat) :
  firstn k (seq start len) = seq start (Nat.min k len).
Proof.
  revert start len; induction k as [|k IH]; intros start len; [reflexivity|].
  destruct len as [|len]; [reflexivity|].
  cbn [seq firstn Nat.min]. now rewrite IH.
Qed.

Lemma fetch_reviews_selenium_eq (url domain asin : string)
    (num_pages : nat) (d : Driver) :
  clean_url netloc url = Ok (domain, asin) ->
  let review_url := get_review_url domain asin in
  let good := Fetch.good_pages review_elements review_url (seq 1 num_pages) in
  fetch_reviews_selenium polarity netloc review_elements url num_pages d
  = (Ok (Fetch.collect polarity review_elements review_url good []),
     (d ++ map (Fetch.page_url review_url)
             (seq 1 (Nat.min (S (List.length good)) num_pages)))%list).
Proof.
  intros H review_url good.
  unfold fetch_reviews_selenium, try_except.
  rewrite (bind_lift _ _ _ _ H). cbv beta iota.
  fold review_url. rewrite fetch_pages_eq, firstn_seq_min. reflexivity.
Qed.

(** X4.  With a valid URL the listing pages are requested in order from page 1
    and no further than the first page that fails, at most [num_pages] of
    them; the reviews of the pages before it are all returned. *)
Theorem fetch_reviews_selenium_pages (url domain asin : string)
    (num_pages : nat) (d : Driver) :
  clean_url netloc url = Ok (domain, asin) ->
  let review_url := get_review_url domain asin in
  let good := Fetch.good_pages review_elements review_url (seq 1 num_pages) in
  fetch_reviews_selenium polarity netloc review_elements url num_pages d
  = (Ok (Fetch.collect polarity review_elements review_url good []),
     (d ++ map (Fetch.page_url review_url)
             (seq 1 (Nat.min (S (List.length good)) num_pages)))%list)
  /\ (Nat.min (S (List.length good)) num_pages <= num_pages)%nat.
Proof.
  intros H review_url good. split.
  - now apply fetch_reviews_selenium_eq.
  - apply Nat.le_min_r.
Qed.

(** X5.  A first page that fails leaves nothing to summarise: one page is
    requested, the review list is empty and the analysis returns the fixed
    "no reviews" summary rather than an error. *)
Theorem first_page_failure (url domain asin : string) (e : exn) (d : Driver) :
  clean_url netloc url = Ok (domain, asin) ->
  review_elements (Fetch.page_url (get_review_url domain asin) 1) = Raise e ->
  let page1 := Fetch.page_url (get_review_url domain asin) 1 in
  fetch_reviews_selenium polarity netloc review_elements url 500 d
  = (Ok [], (d ++ [page1])%list)
  /\ scrape_amazon_reviews polarity netloc review_elements product_title_text series_mean format_1f url d
     = (Ok "No reviews found for analysis.", (d ++ [page1])%list).
Proof.
  intros H He page1.
  assert (Hf : fetch_reviews_selenium polarity netloc review_elements url 500 d
               = (Ok [], (d ++ [page1])%list)).
  { rewrite (fetch_reviews_selenium_eq _ _ _ _ _ H).
    change (seq 1 500) with (1 :: seq 2 499). cbn [Fetch.good_pages].
    unfold Fetch.page_ok. rewrite He. reflexivity. }
  split; [exact Hf|].
  unfold scrape_amazon_reviews. rewrite (bind_ok _ _ _ _ _ Hf). reflexivity.
Qed.

End Fetching.

Section Pipeline.

Variable polarity : string -> Q.
Variable netloc : string -> result string.
Variable review_elements : string -> result (list (result (string * Q))).
Variable product_title_text : string -> result string.
Variable series_mean : list Q -> Q.
Variable format_1f : Q -> string.

Lemma collect_forall (P : Review -> Prop) (review_url : string)
    (pages : list nat) (reviews : list Review) :
  (forall body rating,
     P (mkReview (strip body) rating (analyze_sentiment polarity (strip body)))) ->
  Forall P reviews ->
  Forall P (Fetch.collect polarity review_elements review_url pages reviews).
Proof.
  intro HP. unfold Fetch.collect. revert reviews.
  induction pages as [|page pages IH]; intros reviews H; cbn [fold_left];
    [assumption|].
  apply IH. destruct (review_elements _); [|assumption].
  now apply parse_reviews_forall.
Qed.

Lemma fetch_reviews_selenium_total (url : string) (num_pages : nat) (d : Driver) :
  exists reviews d',
    fetch_reviews_selenium polarity netloc review_elements url num_pages d
    = (Ok reviews, d').
Proof.
  destruct (clean_url netloc url) as [[domain asin]|e] eqn:E.
  - rewrite (fetch_reviews_selenium_eq _ _ _ _ _ _ _ _ E). eauto.
  - unfold fetch_reviews_selenium, try_except, bind, lift. rewrite E.
    unfold ret. eauto.
Qed.

(** X6.  Every review the fetcher returns carries the sentiment of its own text
    and a text without leading or trailing white space. *)
Theorem fetched_reviews_well_formed (url : string) (num_pages : nat)
    (d d' : Driver) (reviews : list Review) :
  fetch_reviews_selenium polarity netloc review_elements url num_pages d
  = (Ok reviews, d') ->
  Forall (fun r => sentiment r = analyze_sentiment polarity (text r)
                   /\ strip (text r) = text r) reviews.
Proof.
  destruct (clean_url netloc url) as [[domain asin]|e] eqn:E.
  - rewrite (fetch_reviews_selenium_eq _ _ _ _ _ _ _ _ E).
    intro H. injection H as <- _.
    apply collect_forall; [|constructor].
    intros body rating. cbn [sentiment text]. split; [reflexivity|].
    apply strip_idempotent.
  - unfold fetch_reviews_selenium, try_except, bind, lift. rewrite E.
    unfold ret. intro H. injection H as <- _. constructor.
Qed.

(** X7.  For a non-empty URL the endpoint always answers with a summary and
    status 200: no failure of the URL, of a page or of a review element
    reaches the handler that answers 500. *)
Theorem analyze_always_summary (url : string) (d : Driver) :
  url <> "" ->
  exists summary d',
    analyze polarity netloc review_elements product_title_text series_mean format_1f (Some url) d
    = (Ok (JsonSummary summary 200), d').
Proof.
  intro Hne. destruct url as [|c url]; [congruence|].
  set (u := String c url).
  destruct (fetch_reviews_selenium_total u 500 d) as (reviews & d1 & Hf).
  assert (Hs : exists summary d',
             scrape_amazon_reviews polarity netloc review_elements
               product_title_text series_mean format_1f u d = (Ok summary, d')).
  { unfold scrape_amazon_reviews. rewrite (bind_ok _ _ _ _ _ Hf).
    destruct reviews as [|r rs].
    - do 2 eexists. reflexivity.
    - do 2 eexists. apply generate_summary_eq. discriminate. }
  destruct Hs as (summary & d' & Hs).
  exists summary, d'. unfold analyze. subst u. unfold try_except.
  rewrite (bind_ok _ _ _ _ _ Hs). reflexivity.
Qed.

(** X8.  The fixed "no reviews" message is returned for the empty review list
    and for no other. *)
Theorem no_reviews_message_iff (reviews : list Review) (url : string)
    (d : Driver) :
  fst (generate_summary netloc product_title_text series_mean format_1f reviews url d)
  = Ok "No reviews found for analysis."
  <-> reviews = [].
Proof.
  split.
  - intro H. destruct reviews as [|r rs]; [reflexivity|].
    rewrite generate_summary_eq in H by discriminate.
    cbn [fst] in H. discriminate H.
  - intros ->. reflexivity.
Qed.

(** X9.  A title lookup that fails costs nothing but the title: without a
    product identifier the product page is not requested, and in either
    case the narrative is the usual one under the title "Product". *)
Theorem title_fallback (reviews : list Review) (url : string) (d : Driver) :
  reviews <> [] ->
  (asin_match url = None ->
   generate_summary netloc product_title_text series_mean format_1f reviews url d
   = (Ok (Narrative.summary series_mean format_1f reviews "Product"), d))
  /\ (forall e, product_title_text url = Raise e ->
      fst (generate_summary netloc product_title_text series_mean format_1f reviews url d)
      = Ok (Narrative.summary series_mean format_1f reviews "Product")).
Proof.
  intro Hne. rewrite (generate_summary_eq _ _ _ _ _ _ _ Hne). split.
  - intro H. destruct (clean_url_invalid netloc url H) as [e He].
    unfold Narrative.title_of, Narrative.driver_after_title. now rewrite He.
  - intros e He. cbn [fst]. unfold Narrative.title_of. rewrite He.
    now destruct (clean_url netloc url).
Qed.

End Pipeline.

Lemma fetched_reviews_well_formed_witness :
  Forall (fun r => sentiment r = analyze_sentiment Sample.polarity (text r)
                   /\ strip (text r) = text r)
    (match fst (fetch_reviews_selenium Sample.polarity Sample.netloc
                  Sample.review_elements Sample.product_url 3 []) with
     | Ok reviews => reviews
     | Raise _ => []
     end).
Proof.
  apply (fetched_reviews_well_formed Sample.polarity Sample.netloc
           Sample.review_elements Sample.product_url 3 []
           (snd (fetch_reviews_selenium Sample.polarity Sample.netloc
                   Sample.review_elements Sample.product_url 3 []))).
  vm_compute. reflexivity.
Defined.

Lemma analyze_always_summary_witness :
  Sample.product_url <> ""
  /\ exists summary d',
       analyze Sample.polarity Sample.netloc Sample.review_elements
         Sample.product_title_text Sample.series_mean Sample.format_1f (Some Sample.product_url) []
       = (Ok (JsonSummary summary 200), d').
Proof.
  assert (H : Sample.product_url <> "") by discriminate.
  split; [exact H|].
  apply (analyze_always_summary Sample.polarity Sample.netloc
           Sample.review_elements Sample.product_title_text Sample.series_mean Sample.format_1f _ [] H).
Defined.

Lemma no_reviews_message_iff_witness :
  fst (generate_summary Sample.netloc Sample.product_title_text Sample.series_mean Sample.format_1f []
         Sample.product_url [])
  = Ok "No reviews found for analysis."
  /\ Sample.reviews <> [].
Proof.
  split.
  - apply (no_reviews_message_iff Sample.netloc Sample.product_title_text Sample.series_mean Sample.format_1f
             [] Sample.product_url []). reflexivity.
  - intro H.
    apply (no_reviews_message_iff Sample.netloc Sample.product_title_text Sample.series_mean Sample.format_1f
             Sample.reviews Sample.product_url []) in H.
    vm_compute in H. discriminate H.
Defined.

Lemma title_fallback_witness :
  Sample.reviews <> []
  /\ asin_match Sample.bad_url = None
  /\ generate_summary Sample.netloc Sample.product_title_text Sample.series_mean Sample.format_1f
       Sample.reviews Sample.bad_url []
     = (Ok (Narrative.summary Sample.series_mean Sample.format_1f Sample.reviews "Product"), []).
Proof.
  assert (H : Sample.reviews <> []) by discriminate.
  split; [exact H|]. split; [reflexivity|].
  apply (title_fallback Sample.netloc Sample.product_title_text Sample.series_mean Sample.format_1f
           Sample.reviews Sample.bad_url [] H).
  reflexivity.
Defined.

Lemma fetch_reviews_selenium_pages_witness :
  clean_url Sample.netloc Sample.product_url = Ok ("www.amazon.com", "B000000001")
  /\ snd (fetch_reviews_selenium Sample.polarity Sample.netloc
            Sample.review_elements Sample.product_url 500 [])
     = [ Sample.listing;
         "https://www.amazon.com/product-reviews/B000000001/?pageNumber=2" ].
Proof.
  assert (H : clean_url Sample.netloc Sample.product_url
              = Ok ("www.amazon.com", "B000000001")) by reflexivity.
  split; [exact H|].
  rewrite (proj1 (fetch_reviews_selenium_pages Sample.polarity Sample.netloc
                    Sample.review_elements _ _ _ 500 [] H)).
  vm_compute. reflexivity.
Defined.

Lemma first_page_failure_witness :
  clean_url Sample.netloc "https://www.amazon.com/dp/B00000000Z"
  = Ok ("www.amazon.com", "B00000000Z")
  /\ scrape_amazon_reviews Sample.polarity Sample.netloc Sample.review_elements
       Sample.product_title_text Sample.series_mean Sample.format_1f "https://www.amazon.com/dp/B00000000Z" []
     = (Ok "No reviews found for analysis.",
        ["https://www.amazon.com/product-reviews/B00000000Z/?pageNumber=1"]).
Proof.
  assert (H : clean_url Sample.netloc "https://www.amazon.com/dp/B00000000Z"
              = Ok ("www.amazon.com", "B00000000Z")) by reflexivity.
  split; [exact H|].
  apply (first_page_failure Sample.polarity Sample.netloc Sample.review_elements
           Sample.product_title_text Sample.series_mean Sample.format_1f _ _ _ WebDriverException [] H).
  reflexivity.
Defined.

(** ** Further properties: the themes *)

Section ThemeKeys.

Lemma fold_left_invariant {A B} (P : A -> Prop) (f : A -> B -> A) (l : list B) :
  (forall a b, In b l -> P a -> P (f a b)) ->
  forall a, P a -> P (fold_left f l a).
Proof.
  induction l as [|b l IH]; intros Hf a Ha; cbn [fold_left]; [assumption|].
  apply IH.
  - intros a' b' Hb'. apply Hf. now right.
  - apply Hf; [now left|assumption].
Qed.

Lemma keys_themes_append (th : Themes) (a s : string) :
  keys (themes_append th a s)
  = if existsb (String.eqb a) (keys th) then keys th else (keys th ++ [a])%list.
Proof.
  unfold keys. induction th as [|[k c] th IH]; cbn [themes_append map fst existsb].
  - reflexivity.
  - rewrite (String.eqb_sym a k).
    destruct (k =? a)%string; cbn [map fst orb]; [reflexivity|].
    rewrite IH. now destruct (existsb _ _).
Qed.

Lemma themes_append_keys_ok (allowed : list string) (th : Themes) (a s : string) :
  In a allowed ->
  NoDup (keys th) /\ incl (keys th) allowed ->
  NoDup (keys (themes_append th a s))
  /\ incl (keys (themes_append th a s)) allowed.
Proof.
  intros Ha [Hnd Hincl]. rewrite keys_themes_append.
  destruct (existsb (String.eqb a) (keys th)) eqn:E; [now split|].
  split.
  - apply NoDup_app; [assumption|repeat constructor; intros []|].
    intros x Hx [Heq|[]]. subst x.
    assert (Hex : existsb (String.eqb a) (keys th) = true).
    { apply existsb_exists. exists a. split; [assumption|apply String.eqb_refl]. }
    congruence.
  - apply incl_app; [assumption|]. intros x [<-|[]]. assumption.
Qed.

(** X10.  The themes have at most one entry per aspect, and only for the eight
    aspects of the table. *)
Theorem extract_themes_keys (review_list : list Review) :
  NoDup (keys (extract_themes review_list))
  /\ incl (keys (extract_themes review_list)) (map fst common_aspects)
  /\ (List.length (extract_themes review_list) <= 8)%nat.
Proof.
  assert (H : NoDup (keys (extract_themes review_list))
              /\ incl (keys (extract_themes review_list)) (map fst common_aspects)).
  { unfold extract_themes, extract_themes_from.
    apply fold_left_invariant; [|split; [constructor|intros x []]].
    intros th r _ Hth.
    apply fold_left_invariant; [|assumption].
    intros th' [aspect kws] Hin Hth'. unfold extract_aspect.
    destruct (any_keyword_in kws _); [|assumption].
    destruct (relevant_sentences kws _); [assumption|].
    apply themes_append_keys_ok; [|assumption].
    apply (in_map fst) in Hin. exact Hin. }
  destruct H as [Hnd Hincl]. repeat split; try assumption.
  pose proof (NoDup_incl_length Hnd Hincl) as Hlen.
  unfold keys in Hlen. rewrite length_map in Hlen. exact Hlen.
Qed.

Lemma contribution_length (keywords : list string) (r : Review) :
  forallb keyword_ok keywords = true ->
  List.length (Narrative.contribution keywords r)
  = if any_keyword_in keywords (lower (text r)) then 1%nat else 0%nat.
Proof.
  intro Hok. unfold Narrative.contribution, Narrative.examples_of.
  destruct (any_keyword_in keywords (lower (text r))) eqn:E; [|reflexivity].
  destruct (first_relevant_exists keywords _ Hok E) as [s Hs]. now rewrite Hs.
Qed.

Lemma examples_length (review_list : list Review) (aspect : string)
    (keywords : list string) :
  In (aspect, keywords) common_aspects ->
  List.length (themes_get (extract_themes review_list) aspect)
  = List.length
      (filter (fun r => any_keyword_in keywords (lower (text r))) review_list).
Proof.
  intro Hin. unfold extract_themes.
  rewrite (extract_themes_from_get common_aspects review_list aspect keywords
             common_aspects_nodup Hin).
  pose proof (common_keywords_ok _ _ Hin) as Hok.
  induction review_list as [|r rl IH]; [reflexivity|].
  cbn [flat_map filter]. rewrite length_app, IH, (contribution_length _ _ Hok).
  now destruct (any_keyword_in keywords (lower (text r))).
Qed.

(** X11.  Each review that mentions a keyword of an aspect adds exactly one
    example to the list of that aspect, and the others add none. *)
Theorem examples_count (review_list : list Review) (aspect : string)
    (keywords : list string) :
  In (aspect, keywords) common_aspects ->
  List.length (themes_get (extract_themes review_list) aspect)
  = List.length
      (filter (fun r => any_keyword_in keywords (lower (text r))) review_list)
  /\ (List.length (themes_get (extract_themes review_list) aspect)
      <= List.length review_list)%nat.
Proof.
  intro Hin. pose proof (examples_length review_list aspect keywords Hin) as H.
  split; [exact H|]. rewrite H. apply filter_length_le.
Qed.

Lemma keys_get (th : Themes) (a : string) :
  themes_ok th -> (In a (keys th) <-> themes_get th a <> []).
Proof.
  unfold keys. induction 1 as [|[k c] th [Hc _] _ IH]; cbn [map fst themes_get In].
  - tauto.
  - destruct (String.eqb_spec k a) as [->|Hk].
    + simpl in Hc. tauto.
    + rewrite <- IH. tauto.
Qed.

(** X12.  An aspect is a key of the themes exactly when some review mentions one
    of its keywords, in any letter case. *)
Theorem aspect_present_iff (review_list : list Review) (aspect : string)
    (keywords : list string) :
  In (aspect, keywords) common_aspects ->
  (In aspect (keys (extract_themes review_list))
   <-> exists r, In r review_list
                 /\ any_keyword_in keywords (lower (text r)) = true).
Proof.
  intro Hin.
  rewrite (keys_get _ aspect (extract_themes_ok review_list)).
  pose proof (examples_length review_list aspect keywords Hin) as Hlen.
  split.
  - intro Hne.
    destruct (filter (fun r => any_keyword_in keywords (lower (text r)))
                review_list) as [|r rs] eqn:E.
    + destruct (themes_get _ aspect); [congruence|discriminate Hlen].
    + assert (Hr : In r (filter (fun r => any_keyword_in keywords (lower (text r)))
                           review_list)) by (rewrite E; now left).
      apply filter_In in Hr. eauto.
  - intros (r & Hr & Hany) Hnil. rewrite Hnil in Hlen.
    assert (Hf : In r (filter (fun r => any_keyword_in keywords (lower (text r)))
                         review_list)) by (apply filter_In; auto).
    destruct (filter _ review_list); [contradiction|discriminate Hlen].
Qed.

End ThemeKeys.

Lemma examples_count_witness :
  In ("quality", ["quality"; "build"; "material"; "durability"; "construction"])
     common_aspects
  /\ List.length (themes_get (extract_themes Sample.reviews) "quality") = 2%nat.
Proof.
  assert (H : In ("quality",
                  ["quality"; "build"; "material"; "durability"; "construction"])
                 common_aspects) by (left; reflexivity).
  split; [exact H|].
  rewrite (proj1 (examples_count Sample.reviews _ _ H)). reflexivity.
Defined.

Lemma aspect_present_iff_witness :
  In ("support", ["support"; "customer service"; "warranty"; "help"])
     common_aspects
  /\ In "support" (keys (extract_themes Sample.reviews)).
Proof.
  assert (H : In ("support", ["support"; "customer service"; "warranty"; "help"])
                 common_aspects) by (do 7 right; left; reflexivity).
  split; [exact H|].
  apply (aspect_present_iff Sample.reviews _ _ H).
  exists Sample.bad. split; [right; left; reflexivity|reflexivity].
Defined.

Section ThemeExamples.

Lemma lower_char_idempotent (c : ascii) : lower_char (lower_char c) = lower_char c.
Proof. destruct c as [[] [] [] [] [] [] [] []]; reflexivity. Qed.

Lemma lower_idempotent (s : string) : lower (lower s) = lower s.
Proof.
  induction s as [|c s IH]; cbn [lower]; [reflexivity|].
  now rewrite lower_char_idempotent, IH.
Qed.

Lemma all_chars_lower (s : string) :
  all_chars (fun c => Ascii.eqb (lower_char c) c) (lower s) = true.
Proof.
  induction s as [|c s IH]; cbn [lower all_chars]; [reflexivity|].
  rewrite lower_char_idempotent, Ascii.eqb_refl. exact IH.
Qed.

Lemma all_chars_split (p : ascii -> bool) (sep : ascii) (s : string) :
  all_chars p s = true ->
  Forall (fun seg => all_chars p seg = true /\ no_char sep seg = true)
         (split sep s).
Proof.
  induction s as [|c s IH]; cbn [split all_chars]; intro H.
  - repeat constructor.
  - apply andb_true_iff in H as [Hc Hs]. specialize (IH Hs).
    destruct (Ascii.eqb c sep) eqn:E.
    + constructor; [split; reflexivity|assumption].
    + destruct (split sep s) as [|seg segs]; [repeat constructor|].
      * cbn. now rewrite Hc.
      * cbn. now rewrite E.
      * inversion IH as [|? ? [H1 H2] Hrest]; subst.
        constructor; [|assumption].
        cbn [all_chars no_char]. now rewrite Hc, H1, E, H2.
Qed.

Lemma all_chars_lstrip (p : ascii -> bool) (s : string) :
  all_chars p s = true -> all_chars p (lstrip s) = true.
Proof.
  induction s as [|c s IH]; cbn [lstrip all_chars]; intro H; [reflexivity|].
  destruct (is_space c); [|exact H].
  apply andb_true_iff in H as [_ H]. auto.
Qed.

Lemma all_chars_rstrip (p : ascii -> bool) (s : string) :
  all_chars p s = true -> all_chars p (rstrip s) = true.
Proof.
  induction s as [|c s IH]; cbn [rstrip all_chars]; intro H; [reflexivity|].
  apply andb_true_iff in H as [Hc Hs]. specialize (IH Hs).
  destruct (rstrip s) as [|c' r].
  - destruct (is_space c); cbn; [reflexivity|now rewrite Hc].
  - cbn [all_chars] in *. now rewrite Hc, IH.
Qed.

Lemma no_char_all_chars (sep : ascii) (s : string) :
  no_char sep s = all_chars (fun c => negb (Ascii.eqb c sep)) s.
Proof. induction s as [|c s IH]; cbn; [reflexivity|now rewrite IH]. Qed.

Lemma lower_fixed (s : string) :
  all_chars (fun c => Ascii.eqb (lower_char c) c) s = true -> lower s = s.
Proof.
  induction s as [|c s IH]; cbn [lower all_chars]; intro H; [reflexivity|].
  apply andb_true_iff in H as [Hc Hs]. apply Ascii.eqb_eq in Hc.
  now rewrite Hc, IH.
Qed.

Lemma themes_append_forall (Q : string -> Prop) (th : Themes) (a s : string) :
  Forall (fun e => Forall Q (snd e)) th -> Q s ->
  Forall (fun e => Forall Q (snd e)) (themes_append th a s).
Proof.
  intros Hth Hs. induction Hth as [|[k c] th Hc Hth IH]; cbn [themes_append].
  - repeat constructor. assumption.
  - destruct (k =? a)%string; constructor; auto.
    cbn [snd] in *. apply Forall_app. split; [assumption|now constructor].
Qed.

(** X13.  Every example stored in the themes is in lower case, holds no period
    and has no white space at either end. *)
Theorem examples_are_clean (review_list : list Review) (aspect s : string)
    (comments : list string) :
  In (aspect, comments) (extract_themes review_list) ->
  In s comments ->
  lower s = s /\ no_char "." s = true /\ strip s = s.
Proof.
  set (Q := fun s => lower s = s /\ no_char "." s = true /\ strip s = s).
  assert (H : Forall (fun e => Forall Q (snd e)) (extract_themes review_list)).
  { unfold extract_themes, extract_themes_from.
    apply fold_left_invariant; [|constructor].
    intros th r _ Hth. apply fold_left_invariant; [|assumption].
    intros th' [a kws] _ Hth'. unfold extract_aspect, relevant_sentences.
    destruct (any_keyword_in kws _); [|assumption].
    destruct (filter _ (split "." (lower (text r)))) as [|x l] eqn:E;
      cbn [map]; [assumption|].
    apply themes_append_forall; [assumption|].
    assert (Hx : In x (split "." (lower (text r)))).
    { assert (Hf : In x (filter (fun s0 => any_keyword_in kws s0
                                           && nonempty (strip s0))
                          (split "." (lower (text r)))))
        by (rewrite E; now left).
      now apply filter_In in Hf. }
    pose proof (all_chars_split _ "." _ (all_chars_lower (text r))) as Hsplit.
    rewrite Forall_forall in Hsplit. destruct (Hsplit x Hx) as [Hlow Hdot].
    unfold Q. repeat split.
    - apply lower_fixed. unfold strip.
      now apply all_chars_rstrip, all_chars_lstrip.
    - rewrite no_char_all_chars in *. unfold strip.
      now apply all_chars_rstrip, all_chars_lstrip.
    - apply strip_idempotent. }
  intros Hin Hs. rewrite Forall_forall in H. specialize (H _ Hin).
  cbn [snd] in H. rewrite Forall_forall in H. exact (H s Hs).
Qed.

(** X14.  Theme extraction ignores the letter case of the review texts. *)
Theorem extract_themes_ignores_case (review_list : list Review) :
  extract_themes (map Fetch.lower_review review_list)
  = extract_themes review_list.
Proof.
  unfold extract_themes, extract_themes_from.
  generalize (@nil (string * list string)) as th.
  induction review_list as [|r rl IH]; intro th; cbn [map fold_left];
    [reflexivity|].
  rewrite IH. cbn [Fetch.lower_review text]. now rewrite lower_idempotent.
Qed.

End ThemeExamples.

Lemma examples_are_clean_witness :
  In ("value", ["and cheap price too!"]) (extract_themes [Sample.good])
  /\ strip "and cheap price too!" = "and cheap price too!".
Proof.
  assert (H : In ("value", ["and cheap price too!"]) (extract_themes [Sample.good]))
    by (right; left; reflexivity).
  split; [exact H|].
  apply (examples_are_clean [Sample.good] "value" "and cheap price too!" _ H).
  left. reflexivity.
Defined.

(** ** Further properties: the statistics and the narrative *)

Section Statistics.

Local Open Scope Q_scope.

Lemma counts_le (reviews : list Review) :
  (Narrative.count_of Positive reviews + Narrative.count_of Negative reviews
   <= List.length reviews)%nat.
Proof.
  unfold Narrative.count_of.
  induction reviews as [|r rs IH]; [reflexivity|].
  cbn [filter].
  change (has_sentiment Positive r) with (Sentiment_eqb (sentiment r) Positive).
  change (has_sentiment Negative r) with (Sentiment_eqb (sentiment r) Negative).
  destruct (sentiment r); cbn [Sentiment_eqb List.length]; lia.
Qed.

Lemma percent_range (p n : nat) :
  (0 < n)%nat -> (p <= n)%nat ->
  0 <= inject_Z (Z.of_nat p) / inject_Z (Z.of_nat n) * 100
  /\ inject_Z (Z.of_nat p) / inject_Z (Z.of_nat n) * 100 <= 100.
Proof.
  intros Hn Hle. destruct n as [|n]; [lia|].
  change (Z.of_nat (S n)) with (Z.pos (Pos.of_succ_nat n)).
  assert (Hp : (0 <= Z.of_nat p)%Z) by lia.
  assert (Hs : (Z.of_nat p <= Z.pos (Pos.of_succ_nat n))%Z) by lia.
  revert Hp Hs.
  generalize (Z.of_nat p) (Pos.of_succ_nat n); intros zp q Hp Hs.
  unfold Qle, Qdiv, Qmult, Qinv, inject_Z. cbn [Qnum Qden].
  rewrite !Pos.mul_1_r. split; nia.
Qed.

(** X15.  Each of the two percentages lies between 0 and 100. *)
Theorem sentiment_percent_bounds (reviews : list Review) (pp np : Q) :
  sentiment_percent Positive reviews (List.length reviews) = Ok pp ->
  sentiment_percent Negative reviews (List.length reviews) = Ok np ->
  (0 <= pp /\ pp <= 100) /\ (0 <= np /\ np <= 100).
Proof.
  destruct reviews as [|r rs]; [discriminate|].
  rewrite !sentiment_percent_eq. intros Hp Hn.
  injection Hp as <-. injection Hn as <-.
  pose proof (counts_le (r :: rs)) as Hle.
  assert (Hpos : (0 < Narrative.total_count (r :: rs))%nat) by (cbn; lia).
  unfold Narrative.total_count in *.
  destruct (percent_range (Narrative.count_of Positive (r :: rs)) _ Hpos
              ltac:(lia)) as [H1 H2].
  destruct (percent_range (Narrative.count_of Negative (r :: rs)) _ Hpos
              ltac:(lia)) as [H3 H4].
  repeat split; assumption.
Qed.

End Statistics.

Lemma sentiment_percent_bounds_witness :
  sentiment_percent Positive Sample.reviews 4 = Ok (100 # 4)%Q
  /\ sentiment_percent Negative Sample.reviews 4 = Ok (100 # 4)%Q
  /\ (100 # 4 <= 100)%Q.
Proof.
  assert (Hp : sentiment_percent Positive Sample.reviews (List.length Sample.reviews)
               = Ok (100 # 4)%Q) by reflexivity.
  assert (Hn : sentiment_percent Negative Sample.reviews (List.length Sample.reviews)
               = Ok (100 # 4)%Q) by reflexivity.
  split; [exact Hp|]. split; [exact Hn|].
  apply (sentiment_percent_bounds Sample.reviews _ _ Hp Hn).
Defined.

Section NarrativeShape.

Variable netloc : string -> result string.
Variable product_title_text : string -> result string.
Variable series_mean : list Q -> Q.
Variable format_1f : Q -> string.

Lemma filter_none {A} (f : A -> bool) (l : list A) :
  (forall x, In x l -> f x = false) -> filter f l = [].
Proof.
  induction l as [|a l IH]; intro H; cbn [filter]; [reflexivity|].
  rewrite (H a) by now left. apply IH. intros x Hx. apply H. now right.
Qed.

(** X16.  When no review is longer than 200 characters the narrative is the
    opening followed directly by the closing: short reviews give no themes
    clause and no neutral clause, whatever their sentiment. *)
Theorem short_reviews_only (reviews : list Review) (url : string) (d : Driver) :
  reviews <> [] ->
  (forall r, In r reviews -> (length (text r) <= 200)%nat) ->
  generate_summary netloc product_title_text series_mean format_1f reviews url d
  = (Ok (Narrative.opening series_mean format_1f reviews
           (Narrative.title_of netloc product_title_text url)
           (Narrative.descriptor reviews)
         ++ Narrative.closing series_mean reviews),
     Narrative.driver_after_title netloc url d)
  /\ keys (Narrative.positive_themes reviews) = [].
Proof.
  intros Hne Hshort.
  assert (Hd : forall s, Narrative.detailed s reviews = []).
  { intro s. unfold Narrative.detailed.
    rewrite (filter_none (fun r => (200 <? length (text r))%nat)); [reflexivity|].
    intros r Hr. apply Nat.ltb_ge. now apply Hshort. }
  rewrite (generate_summary_eq _ _ _ _ _ _ _ Hne).
  unfold Narrative.summary, Narrative.positive_themes, Narrative.negative_themes,
    Narrative.neutral_clause.
  rewrite !Hd. split; reflexivity.
Qed.

(** X17.  The closing never contradicts the descriptor: the strong
    recommendation comes only with one of the two strongest positive
    descriptors, the cautious sentence only with a positive descriptor, and
    a negative or mixed descriptor is always closed by the mixed-feedback
    sentence. *)
Theorem closing_matches_descriptor (reviews : list Review) (url : string)
    (d : Driver) :
  reviews <> [] ->
  exists desc closing,
    generate_summary netloc product_title_text series_mean format_1f reviews url d
    = (Ok (Narrative.opening series_mean format_1f reviews
             (Narrative.title_of netloc product_title_text url) desc
           ++ Narrative.themes_clause Narrative.positive_lead_in
                (Narrative.positive_themes reviews)
           ++ Narrative.neutral_clause reviews
           ++ Narrative.themes_clause Narrative.negative_lead_in
                (Narrative.negative_themes reviews)
           ++ closing),
       Narrative.driver_after_title netloc url d)
    /\ (prefix Narrative.strong_recommendation closing = true ->
        desc = "overwhelmingly positive reviews"
        \/ desc = "largely positive reviews")
    /\ (closing = Narrative.cautious_satisfaction ->
        desc = "overwhelmingly positive reviews"
        \/ desc = "largely positive reviews"
        \/ desc = "generally positive reviews")
    /\ (desc = "generally negative reviews" \/ desc = "mixed reviews" ->
        closing = Narrative.mixed_feedback).
Proof.
  intro Hne.
  exists (Narrative.descriptor reviews), (Narrative.closing series_mean reviews).
  split; [now apply generate_summary_eq|].
  unfold Narrative.descriptor, Narrative.closing.
  generalize (Z.of_nat (Narrative.total_count reviews)) as n.
  generalize (Z.of_nat (Narrative.count_of Positive reviews)) as p.
  generalize (Z.of_nat (Narrative.count_of Negative reviews)) as m.
  generalize (join " and " (firstn 2 (keys (Narrative.positive_themes reviews))))
    as named.
  intros named m p n.
  destruct (Qle_bool 4 (Narrative.mean_rating series_mean reviews));
    destruct (Qle_bool (35 # 10) (Narrative.mean_rating series_mean reviews));
    cbn [andb];
    destruct (Z.leb_spec (80 * n) (100 * p));
    destruct (Z.leb_spec (70 * n) (100 * p));
    destruct (Z.leb_spec (60 * n) (100 * p));
    destruct (Z.leb_spec (60 * n) (100 * m));
    try lia;
    (split; [|split]);
    try (intros [Hd|Hd]; discriminate Hd);
    try (intro Hd; vm_compute in Hd; discriminate Hd);
    auto.
Qed.

End NarrativeShape.

Lemma short_reviews_only_witness :
  [Sample.short] <> []
  /\ generate_summary Sample.netloc Sample.product_title_text Sample.series_mean Sample.format_1f
       [Sample.short] Sample.product_url []
     = (Ok (Narrative.opening Sample.series_mean Sample.format_1f [Sample.short] "Widget" "mixed reviews"
            ++ Narrative.mixed_feedback),
        [Sample.product_url]).
Proof.
  assert (H : [Sample.short] <> []) by discriminate.
  split; [exact H|].
  apply (short_reviews_only Sample.netloc Sample.product_title_text Sample.series_mean Sample.format_1f
           [Sample.short] Sample.product_url [] H).
  intros r [<-|[]]. cbn. lia.
Defined.

Lemma closing_matches_descriptor_witness :
  Sample.reviews <> []
  /\ exists desc closing d',
       generate_summary Sample.netloc Sample.product_title_text Sample.series_mean Sample.format_1f
         Sample.reviews Sample.product_url []
       = (Ok (Narrative.opening Sample.series_mean Sample.format_1f Sample.reviews
                (Narrative.title_of Sample.netloc Sample.product_title_text
                   Sample.product_url) desc
              ++ Narrative.themes_clause Narrative.positive_lead_in
                   (Narrative.positive_themes Sample.reviews)
              ++ Narrative.neutral_clause Sample.reviews
              ++ Narrative.themes_clause Narrative.negative_lead_in
                   (Narrative.negative_themes Sample.reviews)
              ++ closing), d').
Proof.
  assert (H : Sample.reviews <> []) by discriminate.
  split; [exact H|].
  destruct (closing_matches_descriptor Sample.netloc Sample.product_title_text Sample.series_mean Sample.format_1f
              Sample.reviews Sample.product_url [] H)
    as (desc & closing & Heq & _).
  exists desc, closing. eexists. exact Heq.
Defined.
